(** * SenteryV3 object-detection backend: session supervisor

    A shallow embedding of [python-backend/detector.py] (class
    [ObjectDetector]) and of the session handling of
    [python-backend/app.py] (the [/start] and [/stop] routes and the
    monitoring thread), followed by the properties of the specification
    that concern them.

    Conventions of the embedding:
    - Python [str] values are [string]s (byte strings); the labels and
      locators that matter below are ASCII.
    - [time.time()] values, elapsed times and confidences are rationals
      ([Q]): every float is a rational, and the arithmetic on them
      (one subtraction before a comparison) is taken as exact.
    - the clock, the camera, the inference engine and the HTTP transports
      are the environment: each operation receives what it observes of
      them as an argument and reports the calls it makes as a list of
      [Event]s, in program order.
    - the dictionary [last_notification_time] is a [gmap string Q]. *)

From Stdlib Require Import ZArith QArith Qround Lia Lqa Bool Ascii String List.
From Stdlib Require Import DecimalString DecimalPos DecimalN.
From stdpp Require Import base option list gmap strings.

Local Open Scope string_scope.
Local Open Scope Z_scope.

(** ** Python string operations *)

Module PyStr.

(** [c.lower()] on one ASCII character. *)
Definition lower_ascii (c : ascii) : ascii :=
  let n := nat_of_ascii c in
  if ((65 <=? n) && (n <=? 90))%nat then ascii_of_nat (n + 32) else c.

(** [s.lower()] *)
Fixpoint lower (s : string) : string :=
  match s with
  | EmptyString => EmptyString
  | String c s' => String (lower_ascii c) (lower s')
  end.

(** [s.startswith(p)] *)
Definition startswith (s p : string) : bool := String.prefix p s.

(** [sub in s] *)
Fixpoint contains (s sub : string) : bool :=
  String.prefix sub s ||
  match s with
  | EmptyString => false
  | String _ s' => contains s' sub
  end.

(** [s.replace(old, "")] for a non-empty [old]: every occurrence of
    [old], found from left to right without overlap, is removed.
    [skip] counts the characters of a found occurrence still to drop. *)
Fixpoint remove_from (old : string) (skip : nat) (s : string) : string :=
  match s with
  | EmptyString => EmptyString
  | String c s' =>
      match skip with
      | S k => remove_from old k s'
      | O =>
          if String.prefix old s
          then remove_from old (Nat.pred (String.length old)) s'
          else String c (remove_from old O s')
      end
  end.

Definition remove_all (s old : string) : string := remove_from old O s.

(** [s.lstrip(c)] for a one-character set. *)
Fixpoint lstrip_char (c : ascii) (s : string) : string :=
  match s with
  | String a s' => if Ascii.eqb a c then lstrip_char c s' else s
  | EmptyString => EmptyString
  end.

(** [s.rstrip(c)] for a one-character set. *)
Fixpoint rstrip_char (c : ascii) (s : string) : string :=
  match s with
  | EmptyString => EmptyString
  | String a s' =>
      match rstrip_char c s' with
      | EmptyString => if Ascii.eqb a c then EmptyString else String a EmptyString
      | r => String a r
      end
  end.

(** Truth value of a string: empty strings are false. *)
Definition nonempty (s : string) : bool :=
  match s with EmptyString => false | _ => true end.

(** Truth value of the result of [dict.get(key)]: [None] and [''] are
    false. *)
Definition truthy (o : option string) : bool :=
  match o with Some s => nonempty s | None => false end.

(** *** [int(s)] *)

(** The characters [int] strips from both ends. *)
Definition is_space (c : ascii) : bool :=
  let n := nat_of_ascii c in
  (((9 <=? n) && (n <=? 13)) || (n =? 32))%nat.

Definition digit_of (c : ascii) : option Z :=
  let n := nat_of_ascii c in
  if ((48 <=? n) && (n <=? 57))%nat then Some (Z.of_nat (n - 48)) else None.

Fixpoint lstrip_space (s : string) : string :=
  match s with
  | String a s' => if is_space a then lstrip_space s' else s
  | EmptyString => EmptyString
  end.

Fixpoint rstrip_space (s : string) : string :=
  match s with
  | EmptyString => EmptyString
  | String a s' =>
      match rstrip_space s' with
      | EmptyString => if is_space a then EmptyString else String a EmptyString
      | r => String a r
      end
  end.

(** Decimal digits, single underscores allowed between two digits.
    [after_digit] tells whether the previous character was a digit. *)
Fixpoint digits (acc : Z) (after_digit : bool) (s : string) : option Z :=
  match s with
  | EmptyString => if after_digit then Some acc else None
  | String c s' =>
      match digit_of c with
      | Some d => digits (10 * acc + d) true s'
      | None =>
          if Ascii.eqb c "_" && after_digit
          then match s' with
               | EmptyString => None
               | String c' _ =>
                   match digit_of c' with
                   | Some _ => digits acc false s'
                   | None => None
                   end
               end
          else None
      end
  end.

(** The number of decimal digits in a string. *)
Fixpoint digit_count (s : string) : N :=
  match s with
  | EmptyString => 0%N
  | String c s' =>
      ((match digit_of c with Some _ => 1 | None => 0 end)
       + digit_count s')%N
  end.

(** [sys.int_info.default_max_str_digits]: from CPython 3.10.7 on,
    [int] refuses a string with more digits, leading zeros counted,
    sign, underscores and surrounding spaces not counted. *)
Definition max_str_digits : N := 4300.

Definition within_limit (r : string) (v : option Z) : option Z :=
  if (max_str_digits <? digit_count r)%N then None else v.

(** [int(s)] in base 10; [None] stands for [ValueError]. *)
Definition int (s : string) : option Z :=
  match rstrip_space (lstrip_space s) with
  | String "+" r => within_limit r (digits 0 false r)
  | String "-" r => within_limit r (option_map Z.opp (digits 0 false r))
  | r => within_limit r (digits 0 false r)
  end.

(** *** Number formatting *)

Definition of_N (n : N) : string := NilZero.string_of_uint (N.to_uint n).

(** [f"{n:02d}"] for a natural number. *)
Definition two_digits (n : N) : string :=
  if (n <? 10)%N then "0" ++ of_N n else of_N n.

(** Round to the nearest integer, ties to even, as the float
    formatting does. *)
Definition round_half_even (q : Q) : Z :=
  let f := Qfloor q in
  let r := (q - inject_Z f)%Q in
  match (r ?= 1 # 2)%Q with
  | Lt => f
  | Gt => f + 1
  | Eq => if Z.even f then f else f + 1
  end.

(** [f"{x:.2%}"]: the value times 100, two digits after the point,
    then a percent sign. *)
Definition format_percent2 (x : Q) : string :=
  let n := round_half_even (x * 10000)%Q in
  let a := Z.to_N (Z.abs n) in
  (if n <? 0 then "-" else "") ++
  of_N (a / 100)%N ++ "." ++ two_digits (a mod 100)%N ++ "%".

(** [str(n)] for an integer. *)
Definition of_Z (n : Z) : string :=
  (if n <? 0 then "-" else "") ++ of_N (Z.to_N (Z.abs n)).

End PyStr.

(** ** Data model *)

(** Comparisons of float values, as booleans. *)
Definition Qgtb (x y : Q) : bool := negb (Qle_bool x y).
Definition Qltb (x y : Q) : bool := negb (Qle_bool y x).
Definition Qgeb (x y : Q) : bool := Qle_bool y x.

(** A captured image; its contents play no role here. *)
Definition Frame := N.

(** One entry of the list built from the engine's boxes
    ([{'class': ..., 'confidence': ..., 'box': ...}]). *)
Record Detection := {
  det_class : string;
  det_confidence : Q;
  det_box : list Q
}.

(** The settings dictionary of a start request; [None] is an absent key. *)
Record Settings := {
  ipCameraUrl : option string;
  ipCameraPort : option string;
  ntfyTopic : option string;
  ntfyPriority : option string;
  enablePersonDetection : option bool;
  userId : option string;
  supabaseUrl : option string;
  supabaseKey : option string;
  enableLogging : option bool
}.

(** [key in dict], for a dictionary entry read as an option. *)
Definition has_key {A} (o : option A) : bool :=
  match o with Some _ => true | None => false end.

(** Truth value of the settings dictionary: a dictionary without keys is
    false. *)
Definition settings_truthy (s : Settings) : bool :=
  has_key (ipCameraUrl s) || has_key (ipCameraPort s) ||
  has_key (ntfyTopic s) || has_key (ntfyPriority s) ||
  has_key (enablePersonDetection s) || has_key (userId s) ||
  has_key (supabaseUrl s) || has_key (supabaseKey s) ||
  has_key (enableLogging s).

(** [self.stream_url]: a webcam index or a URL. *)
Inductive StreamUrl :=
| Webcam (index : Z)
| Url (u : string).

(** A [cv2.VideoCapture] object; [cap_opened] is what [isOpened()]
    answers. *)
Record Capture := { cap_opened : bool }.

(** Values of [config.py] (read from the process environment). *)
Record Config := {
  MODEL_PATH : string;
  CONFIDENCE_THRESHOLD : Q;
  DETECTION_INTERVAL : Q;
  NTFY_BASE_URL : string
}.

Definition default_config : Config := {|
  MODEL_PATH := "yolo11m.pt";
  CONFIDENCE_THRESHOLD := 1 # 2;
  DETECTION_INTERVAL := 1;
  NTFY_BASE_URL := "https://ntfy.sh"
|}.

(** The fields of [ObjectDetector]. [model_loaded] is
    [self.model is not None]; [frame_callback] tells whether a callback
    is registered; [last_callback_time] is the attribute
    [_last_callback_time], absent until the first callback. *)
Record Detector := {
  model_loaded : bool;
  is_running : bool;
  stream_url : option StreamUrl;
  ntfy_topic : option string;
  ntfy_priority : string;
  last_notification_time : gmap string Q;
  notification_cooldown : Q;
  cap : option Capture;
  user_id : option string;
  supabase_url : option string;
  supabase_key : option string;
  enable_logging : bool;
  frame_callback : bool;
  enable_person_detection : bool;
  last_heartbeat : Q;
  heartbeat_interval : Q;
  last_callback_time : option Z
}.

(** [ObjectDetector.__init__] *)
Definition init_detector : Detector := {|
  model_loaded := false;
  is_running := false;
  stream_url := None;
  ntfy_topic := None;
  ntfy_priority := "default";
  last_notification_time := ∅;
  notification_cooldown := 60;
  cap := None;
  user_id := None;
  supabase_url := None;
  supabase_key := None;
  enable_logging := false;
  frame_callback := false;
  enable_person_detection := true;
  last_heartbeat := 0;
  heartbeat_interval := 5;
  last_callback_time := None
|}.

(** Assignments to single attributes. *)
Definition set_model_loaded (d : Detector) (b : bool) : Detector :=
  {| model_loaded := b; is_running := is_running d;
     stream_url := stream_url d; ntfy_topic := ntfy_topic d;
     ntfy_priority := ntfy_priority d;
     last_notification_time := last_notification_time d;
     notification_cooldown := notification_cooldown d; cap := cap d;
     user_id := user_id d; supabase_url := supabase_url d;
     supabase_key := supabase_key d; enable_logging := enable_logging d;
     frame_callback := frame_callback d;
     enable_person_detection := enable_person_detection d;
     last_heartbeat := last_heartbeat d;
     heartbeat_interval := heartbeat_interval d;
     last_callback_time := last_callback_time d |}.

Definition set_is_running (d : Detector) (b : bool) : Detector :=
  {| model_loaded := model_loaded d; is_running := b;
     stream_url := stream_url d; ntfy_topic := ntfy_topic d;
     ntfy_priority := ntfy_priority d;
     last_notification_time := last_notification_time d;
     notification_cooldown := notification_cooldown d; cap := cap d;
     user_id := user_id d; supabase_url := supabase_url d;
     supabase_key := supabase_key d; enable_logging := enable_logging d;
     frame_callback := frame_callback d;
     enable_person_detection := enable_person_detection d;
     last_heartbeat := last_heartbeat d;
     heartbeat_interval := heartbeat_interval d;
     last_callback_time := last_callback_time d |}.

Definition set_cap (d : Detector) (c : option Capture) : Detector :=
  {| model_loaded := model_loaded d; is_running := is_running d;
     stream_url := stream_url d; ntfy_topic := ntfy_topic d;
     ntfy_priority := ntfy_priority d;
     last_notification_time := last_notification_time d;
     notification_cooldown := notification_cooldown d; cap := c;
     user_id := user_id d; supabase_url := supabase_url d;
     supabase_key := supabase_key d; enable_logging := enable_logging d;
     frame_callback := frame_callback d;
     enable_person_detection := enable_person_detection d;
     last_heartbeat := last_heartbeat d;
     heartbeat_interval := heartbeat_interval d;
     last_callback_time := last_callback_time d |}.

Definition set_last_notification_time (d : Detector) (t : gmap string Q)
  : Detector :=
  {| model_loaded := model_loaded d; is_running := is_running d;
     stream_url := stream_url d; ntfy_topic := ntfy_topic d;
     ntfy_priority := ntfy_priority d;
     last_notification_time := t;
     notification_cooldown := notification_cooldown d; cap := cap d;
     user_id := user_id d; supabase_url := supabase_url d;
     supabase_key := supabase_key d; enable_logging := enable_logging d;
     frame_callback := frame_callback d;
     enable_person_detection := enable_person_detection d;
     last_heartbeat := last_heartbeat d;
     heartbeat_interval := heartbeat_interval d;
     last_callback_time := last_callback_time d |}.

Definition set_last_heartbeat (d : Detector) (t : Q) : Detector :=
  {| model_loaded := model_loaded d; is_running := is_running d;
     stream_url := stream_url d; ntfy_topic := ntfy_topic d;
     ntfy_priority := ntfy_priority d;
     last_notification_time := last_notification_time d;
     notification_cooldown := notification_cooldown d; cap := cap d;
     user_id := user_id d; supabase_url := supabase_url d;
     supabase_key := supabase_key d; enable_logging := enable_logging d;
     frame_callback := frame_callback d;
     enable_person_detection := enable_person_detection d;
     last_heartbeat := t;
     heartbeat_interval := heartbeat_interval d;
     last_callback_time := last_callback_time d |}.

Definition set_last_callback_time (d : Detector) (t : option Z) : Detector :=
  {| model_loaded := model_loaded d; is_running := is_running d;
     stream_url := stream_url d; ntfy_topic := ntfy_topic d;
     ntfy_priority := ntfy_priority d;
     last_notification_time := last_notification_time d;
     notification_cooldown := notification_cooldown d; cap := cap d;
     user_id := user_id d; supabase_url := supabase_url d;
     supabase_key := supabase_key d; enable_logging := enable_logging d;
     frame_callback := frame_callback d;
     enable_person_detection := enable_person_detection d;
     last_heartbeat := last_heartbeat d;
     heartbeat_interval := heartbeat_interval d;
     last_callback_time := t |}.

(** [set_frame_callback(callback)] with a callback that is not [None]. *)
Definition set_frame_callback (d : Detector) : Detector :=
  {| model_loaded := model_loaded d; is_running := is_running d;
     stream_url := stream_url d; ntfy_topic := ntfy_topic d;
     ntfy_priority := ntfy_priority d;
     last_notification_time := last_notification_time d;
     notification_cooldown := notification_cooldown d; cap := cap d;
     user_id := user_id d; supabase_url := supabase_url d;
     supabase_key := supabase_key d; enable_logging := enable_logging d;
     frame_callback := true;
     enable_person_detection := enable_person_detection d;
     last_heartbeat := last_heartbeat d;
     heartbeat_interval := heartbeat_interval d;
     last_callback_time := last_callback_time d |}.

(** The assignments of [start_detection] that copy the settings
    (lines 89-115 of detector.py). *)
Definition configure (d : Detector) (u : StreamUrl) (s : Settings) : Detector :=
  {| model_loaded := model_loaded d; is_running := is_running d;
     stream_url := Some u;
     ntfy_topic := ntfyTopic s;
     ntfy_priority := default "default" (ntfyPriority s);
     last_notification_time := last_notification_time d;
     notification_cooldown := notification_cooldown d; cap := cap d;
     user_id := Some (default "unknown-user" (userId s));
     supabase_url := supabaseUrl s;
     supabase_key := supabaseKey s;
     enable_logging := default false (enableLogging s);
     frame_callback := frame_callback d;
     enable_person_detection := default true (enablePersonDetection s);
     last_heartbeat := last_heartbeat d;
     heartbeat_interval := heartbeat_interval d;
     last_callback_time := last_callback_time d |}.

(** The request of [send_notification]: URL, headers and body of the
    POST. *)
Record NotifyRequest := {
  req_url : string;
  req_title : string;
  req_priority : string;
  req_tags : string;
  req_body : string
}.

(** Calls that reach the environment, in program order. *)
Inductive Event :=
| EvCapture (u : option StreamUrl)
    (** [cv2.VideoCapture(self.stream_url)] *)
| EvRelease
    (** [self.cap.release()] *)
| EvThread
    (** the detection thread is started *)
| EvNotify (object_class : string) (r : NotifyRequest)
    (** the POST of [send_notification(object_class, ...)] *)
| EvLog (object_class : string) (confidence : Q)
    (** the POST of [log_detection(object_class, confidence)] *)
| EvFrame (f : Frame)
    (** [self.frame_callback(frame_with_boxes)] *)
| EvRestartAttempt (s : Settings)
    (** the monitor's "Attempting to restart detector automatically" *)
| EvHeartbeatWarning (age : Q)
    (** the monitor's "Detector heartbeat age" warning *).

(** [datetime.now()] as far as [strftime("%H:%M:%S")] reads it. *)
Record Clock := { hour : N; minute : N; second : N }.

Definition strftime_HMS (c : Clock) : string :=
  PyStr.two_digits (hour c) ++ ":" ++ PyStr.two_digits (minute c) ++ ":" ++
  PyStr.two_digits (second c).

(** ** [detector.py]: class [ObjectDetector] *)

Module ObjectDetector.

Section Methods.

Variable cfg : Config.

(** [heartbeat]: stamp the liveness signal with [time.time()]. *)
Definition heartbeat (d : Detector) (now : Q) : Detector :=
  set_last_heartbeat d now.

Definition get_last_heartbeat_age (d : Detector) (now : Q) : Q :=
  (now - last_heartbeat d)%Q.

Definition is_heartbeat_active (d : Detector) (now : Q) : bool :=
  let max_age := (heartbeat_interval d * 3)%Q in
  let age := get_last_heartbeat_age d now in
  Qltb age max_age.

(** [load_model]; [ok] tells whether [YOLO(model_path)] returned. *)
Definition load_model (d : Detector) (ok : bool) : Detector * bool :=
  if ok then (set_model_loaded d true, true) else (d, false).

(** The stream locator computed by [start_detection] (lines 84-103). *)
Definition with_port (camera_url camera_port : string) : string :=
  if PyStr.nonempty camera_port && negb (PyStr.contains camera_url ":")
  then camera_url ++ ":" ++ camera_port
  else camera_url.

Definition locate (camera_url camera_port : string) : StreamUrl :=
  if PyStr.startswith camera_url "webcam://" then
    let suffix := PyStr.remove_all camera_url "webcam://" in
    (* int(suffix or 0), with ValueError handled by index 0 *)
    match (if PyStr.nonempty suffix then PyStr.int suffix else Some 0) with
    | Some webcam_index => Webcam webcam_index
    | None => Webcam 0
    end
  else if PyStr.startswith camera_url "rtmp://"
          || PyStr.startswith camera_url "srt://" then
    Url (with_port camera_url camera_port)
  else if negb (PyStr.startswith camera_url "http://"
                || PyStr.startswith camera_url "https://") then
    let camera_url := "http://" ++ camera_url in
    Url (if PyStr.nonempty camera_port
         then camera_url ++ ":" ++ camera_port else camera_url)
  else
    Url (with_port camera_url camera_port).

(** What [cv2.VideoCapture(url)] does. *)
Inductive OpenResult :=
| Opened                     (** an object with [isOpened()] true *)
| NotOpened                  (** an object with [isOpened()] false *)
| OpenRaised (err : string)  (** an exception *).

(** What [start_detection] meets: the time, whether the model loads
    (asked for only when none is cached), the capture, and whether the
    worker thread starts. *)
Record StartEnv := {
  start_now : Q;
  start_load : bool;
  start_open : OpenResult;
  start_thread : bool
}.

(** How a call ends: with a [(success, message)] pair or with an
    exception. *)
Inductive Outcome :=
| Returned (success : bool) (message : string)
| Raised.

Definition start_detection (d : Detector) (settings : Settings)
           (env : StartEnv) : Detector * Outcome * list Event :=
  if is_running d then
    (d, Returned false "Detection is already running", [])
  else
    let d := heartbeat d (start_now env) in
    let camera_url := default "" (ipCameraUrl settings) in
    let camera_port := default "" (ipCameraPort settings) in
    let d := configure d (locate camera_url camera_port) settings in
    if negb (model_loaded d) && negb (snd (load_model d (start_load env)))
    then (d, Returned false "Failed to load detection model", [])
    else
      let d := if model_loaded d then d
               else fst (load_model d (start_load env)) in
      match start_open env with
      | OpenRaised err =>
          (d, Returned false ("Error opening video stream: " ++ err),
           [EvCapture (stream_url d)])
      | NotOpened =>
          (set_cap d (Some {| cap_opened := false |}),
           Returned false "Failed to open video stream",
           [EvCapture (stream_url d)])
      | Opened =>
          let d := set_cap d (Some {| cap_opened := true |}) in
          let d := set_is_running d true in
          if start_thread env
          then (d, Returned true "Detection started successfully",
                [EvCapture (stream_url d); EvThread])
          else (d, Raised, [EvCapture (stream_url d)])
      end.

Definition stop_detection (d : Detector)
  : Detector * (bool * string) * list Event :=
  if negb (is_running d) then
    (d, (false, "Detection is not running"), [])
  else
    let d := set_is_running d false in
    match cap d with
    | Some _ => (set_cap d None, (true, "Detection stopped successfully"),
                 [EvRelease])
    | None => (d, (true, "Detection stopped successfully"), [])
    end.

(** [send_notification]: the POST it makes. Without a topic the URL
    cannot be formed, the exception is caught and nothing is sent. *)
Definition send_notification (d : Detector) (object_class : string)
           (confidence : Q) (is_priority : bool) (now : Clock)
  : list Event :=
  let '(title, message, priority, tags) :=
    if String.eqb (PyStr.lower object_class) "person" then
      ("Person Detected!",
       "A person was detected with " ++ PyStr.format_percent2 confidence
         ++ " confidence",
       "urgent", "warning,eyes,bell")
    else
      ("Object Detected: " ++ object_class,
       "Detected " ++ object_class ++ " with "
         ++ PyStr.format_percent2 confidence ++ " confidence",
       (if negb is_priority then ntfy_priority d else "high"),
       "warning") in
  let timestamp := strftime_HMS now in
  let message := "[" ++ timestamp ++ "] " ++ message in
  match ntfy_topic d with
  | None => []
  | Some topic =>
      let url :=
        if PyStr.startswith topic "http://"
           || PyStr.startswith topic "https://"
        then topic
        else PyStr.rstrip_char "/" (NTFY_BASE_URL cfg) ++ "/"
             ++ PyStr.lstrip_char "/" topic in
      [EvNotify object_class
         {| req_url := url; req_title := title; req_priority := priority;
            req_tags := tags; req_body := message |}]
  end.

(** [log_detection]: the POST to the persistence backend. *)
Definition log_detection (d : Detector) (object_class : string)
           (confidence : Q) : list Event :=
  [EvLog object_class confidence].

(** [object_class not in self.last_notification_time or
     current_time - self.last_notification_time.get(object_class, 0)
       > self.notification_cooldown] *)
Definition cooldown_over (d : Detector) (object_class : string)
           (current_time : Q) : bool :=
  negb (has_key (last_notification_time d !! object_class))
  || Qgtb (current_time - default 0%Q (last_notification_time d !! object_class))
          (notification_cooldown d).

Definition logging_on (d : Detector) : bool :=
  enable_logging d && PyStr.truthy (supabase_url d)
  && PyStr.truthy (supabase_key d).

(** [object_class.lower() == 'person' and self.enable_person_detection] *)
Definition person_alert (d : Detector) (object_class : string) : bool :=
  String.eqb (PyStr.lower object_class) "person"
  && enable_person_detection d.

(** The body of the [for] loop of [process_detections]. *)
Definition process_detection (d : Detector) (current_time : Q)
           (detection : Detection) (now : Clock) : Detector * list Event :=
  let object_class := det_class detection in
  let confidence := det_confidence detection in
  if person_alert d object_class then
    if PyStr.truthy (ntfy_topic d) && cooldown_over d object_class current_time
    then
      let ev := send_notification d object_class confidence true now in
      let d := set_last_notification_time d
                 (<[object_class := current_time]> (last_notification_time d)) in
      (d, (ev ++ (if logging_on d
                  then log_detection d object_class confidence else []))%list)
    else (d, [])
  else if cooldown_over d object_class current_time then
    let '(d, ev) :=
      if PyStr.truthy (ntfy_topic d) then
        (set_last_notification_time d
           (<[object_class := current_time]> (last_notification_time d)),
         send_notification d object_class confidence false now)
      else (d, []) in
    (d, (ev ++ (if logging_on d
                then log_detection d object_class confidence else []))%list)
  else (d, []).

(** [process_detections]: [wall k] is [datetime.now()] as read while the
    [k]-th detection of the frame is handled. *)
Fixpoint process_from (k : nat) (d : Detector) (current_time : Q)
         (detections : list Detection) (wall : nat -> Clock)
  : Detector * list Event :=
  match detections with
  | [] => (d, [])
  | detection :: rest =>
      let '(d1, ev1) := process_detection d current_time detection (wall k) in
      let '(d2, ev2) := process_from (S k) d1 current_time rest wall in
      (d2, (ev1 ++ ev2)%list)
  end.

Definition process_detections (d : Detector) (detections : list Detection)
           (current_time : Q) (wall : nat -> Clock) : Detector * list Event :=
  process_from 0 d current_time detections wall.

(** *** [detection_loop] *)

(** The local variables of [detection_loop]. *)
Record LoopVars := {
  last_detection_time : Q;
  consecutive_errors : nat;
  reconnect_attempts : nat
}.

Definition init_loop : LoopVars :=
  {| last_detection_time := 0; consecutive_errors := 0;
     reconnect_attempts := 0 |}.

Definition max_consecutive_errors : nat := 10.
Definition max_reconnect_attempts : nat := 5.

(** What [self.cap.read()] does. *)
Inductive ReadResult :=
| ReadOk (frame : Frame)  (** [ret] true and a frame *)
| ReadFailed              (** [ret] false or no frame *)
| ReadRaised              (** an exception *).

(** What one iteration meets: the time at its top, the outcome of
    [cv2.VideoCapture] should it call it, the read and how long it took,
    the detections the engine returns ([None]: it raised), the clock in
    milliseconds at the frame callback, and the time and wall clock
    inside [process_detections]. *)
Record IterEnv := {
  it_now : Q;
  it_open : OpenResult;
  it_read : ReadResult;
  it_read_seconds : Q;
  it_infer : option (list Detection);
  it_callback_ms : Z;
  it_process_now : Q;
  it_wall : nat -> Clock
}.

Inductive Control := Continue | Break.

(** [self.cap.release()] when [self.cap] is not [None]. *)
Definition release (d : Detector) : Detector * list Event :=
  match cap d with
  | Some _ => (set_cap d (Some {| cap_opened := false |}), [EvRelease])
  | None => (d, [])
  end.

Definition cap_is_open (d : Detector) : bool :=
  match cap d with Some c => cap_opened c | None => false end.

(** Lines 176-204: the camera is not open. *)
Definition reconnect (d : Detector) (lv : LoopVars) (env : IterEnv)
  : Detector * LoopVars * list Event * Control :=
  let '(d, ev) := release d in
  let ev := (ev ++ [EvCapture (stream_url d)])%list in
  match it_open env with
  | OpenRaised _ => (d, lv, ev, Continue)
  | NotOpened =>
      let d := set_cap d (Some {| cap_opened := false |}) in
      let lv := {| last_detection_time := last_detection_time lv;
                   consecutive_errors := consecutive_errors lv;
                   reconnect_attempts := S (reconnect_attempts lv) |} in
      if (max_reconnect_attempts <=? reconnect_attempts lv)%nat
      then (d, lv, ev, Break)
      else (d, lv, ev, Continue)
  | Opened =>
      let d := set_cap d (Some {| cap_opened := true |}) in
      let lv := {| last_detection_time := last_detection_time lv;
                   consecutive_errors := consecutive_errors lv;
                   reconnect_attempts := 0 |} in
      (d, lv, ev, Continue)
  end.

(** Lines 226-245: the read failed. *)
Definition read_failure (d : Detector) (lv : LoopVars) (env : IterEnv)
  : Detector * LoopVars * list Event * Control :=
  let errors := S (consecutive_errors lv) in
  if (max_consecutive_errors <=? errors)%nat then
    let lv := {| last_detection_time := last_detection_time lv;
                 consecutive_errors := 0;
                 reconnect_attempts := reconnect_attempts lv |} in
    let '(d, ev) := release d in
    let ev := (ev ++ [EvCapture (stream_url d)])%list in
    match it_open env with
    | OpenRaised _ => (d, lv, ev, Continue)
    | NotOpened => (set_cap d (Some {| cap_opened := false |}), lv, ev, Continue)
    | Opened => (set_cap d (Some {| cap_opened := true |}), lv, ev, Continue)
    end
  else
    (d,
     {| last_detection_time := last_detection_time lv;
        consecutive_errors := errors;
        reconnect_attempts := reconnect_attempts lv |},
     [], Continue).

(** Lines 288-307: hand the annotated frame to the callback, at most
    once per 33 ms. *)
Definition publish (d : Detector) (frame : Frame) (current_ms : Z)
  : Detector * list Event :=
  if frame_callback d then
    match last_callback_time d with
    | Some last =>
        if 33 <=? current_ms - last
        then (set_last_callback_time d (Some current_ms), [EvFrame frame])
        else (d, [])
    | None => (set_last_callback_time d (Some current_ms), [EvFrame frame])
    end
  else (d, []).

(** Lines 247-318: a frame was read. *)
Definition read_success (d : Detector) (lv : LoopVars) (env : IterEnv)
           (frame : Frame)
  : Detector * LoopVars * list Event * Control :=
  let lv := {| last_detection_time := it_now env;
               consecutive_errors := 0;
               reconnect_attempts := reconnect_attempts lv |} in
  match it_infer env with
  | None => (d, lv, [], Continue)
  | Some detections =>
      let '(d, ev1) := publish d frame (it_callback_ms env) in
      let '(d, ev2) :=
        match detections with
        | [] => (d, [])
        | _ => process_detections d detections (it_process_now env)
                 (it_wall env)
        end in
      (d, lv, (ev1 ++ ev2)%list, Continue)
  end.

(** One iteration of the [while self.is_running] loop. *)
Definition loop_iter (d : Detector) (lv : LoopVars) (env : IterEnv)
  : Detector * LoopVars * list Event * Control :=
  if Qltb (it_now env - last_detection_time lv) (DETECTION_INTERVAL cfg)
  then (d, lv, [], Continue)
  else if negb (cap_is_open d) then reconnect d lv env
  else
    match it_read env with
    | ReadRaised => read_failure d lv env
    | r =>
        if Qgtb (it_read_seconds env) 10 then
          (* the read took too long: drop the handle *)
          let '(d, ev) := release d in
          (set_cap d None, lv, ev, Continue)
        else
          match r with
          | ReadOk frame => read_success d lv env frame
          | _ => read_failure d lv env
          end
    end.

(** Lines 324-333: the clean-up once the loop is left. *)
Definition loop_exit (d : Detector) : Detector * list Event :=
  match cap d with
  | Some _ => (set_cap d None, [EvRelease])
  | None => (d, [])
  end.

(** [detection_loop] run over the iterations [envs]; the last component
    tells whether the loop was left. *)
Fixpoint detection_loop (d : Detector) (lv : LoopVars) (envs : list IterEnv)
  : Detector * LoopVars * list Event * bool :=
  match envs with
  | [] => (d, lv, [], false)
  | env :: rest =>
      if negb (is_running d) then
        let '(d, ev) := loop_exit d in (d, lv, ev, true)
      else
        let '(d, lv, ev, c) := loop_iter d lv env in
        match c with
        | Break =>
            let '(d, ev') := loop_exit d in (d, lv, (ev ++ ev')%list, true)
        | Continue =>
            let '(d, lv, ev', finished) := detection_loop d lv rest in
            (d, lv, (ev ++ ev')%list, finished)
        end
  end.

End Methods.

End ObjectDetector.

(** ** [app.py]: the session routes and the monitoring thread *)

Module App.

Import ObjectDetector.

Section Routes.

Variable cfg : Config.

(** The module-level variables of app.py. *)
Record Globals := {
  detection_active : bool;
  monitoring_active : bool;
  current_settings : option Settings;
  latest_frame : option Frame
}.

Definition init_globals : Globals :=
  {| detection_active := false; monitoring_active := false;
     current_settings := None; latest_frame := None |}.

Definition clear_latest_frame (g : Globals) : Globals :=
  {| detection_active := detection_active g;
     monitoring_active := monitoring_active g;
     current_settings := current_settings g;
     latest_frame := None |}.

(** The callback registered with the detector. *)
Definition update_latest_frame (g : Globals) (frame_with_boxes : Frame)
  : Globals :=
  {| detection_active := detection_active g;
     monitoring_active := monitoring_active g;
     current_settings := current_settings g;
     latest_frame := Some frame_with_boxes |}.

Definition set_detection_active (g : Globals) (b : bool) : Globals :=
  {| detection_active := b;
     monitoring_active := monitoring_active g;
     current_settings := current_settings g;
     latest_frame := latest_frame g |}.

(** [start_monitoring]: the flag is raised and the thread started unless
    one is alive. *)
Definition start_monitoring (g : Globals) : Globals :=
  {| detection_active := detection_active g;
     monitoring_active := true;
     current_settings := current_settings g;
     latest_frame := latest_frame g |}.

(** The JSON answer of a route and its status code. *)
Record Response := {
  status : nat;
  success : bool;
  message : string
}.

(** The settings as [/start] hands them to the detector: the person
    flag is filled in, and a request with an [Authorization] header
    gets the fixed user id. *)
Definition prepare (settings : Settings) (authorization : option string)
  : Settings :=
  {| ipCameraUrl := ipCameraUrl settings;
     ipCameraPort := ipCameraPort settings;
     ntfyTopic := ntfyTopic settings;
     ntfyPriority := ntfyPriority settings;
     enablePersonDetection :=
       Some (default true (enablePersonDetection settings));
     userId := if PyStr.truthy authorization then Some "user-from-token"
               else userId settings;
     supabaseUrl := supabaseUrl settings;
     supabaseKey := supabaseKey settings;
     enableLogging := enableLogging settings |}.

(** Route [/start]. *)
Definition start_detection (g : Globals) (d : Detector)
           (settings : Settings) (authorization : option string)
           (env : StartEnv)
  : Globals * Detector * Response * list Event :=
  if detection_active g then
    (g, d, {| status := 400; success := false;
              message := "Detection is already running" |}, [])
  else if negb (PyStr.truthy (ipCameraUrl settings)) then
    (g, d, {| status := 400; success := false;
              message := "Camera URL is required" |}, [])
  else
    let settings := prepare settings authorization in
    match ObjectDetector.start_detection d settings env with
    | (d, Returned true msg, ev) =>
        let g := {| detection_active := true;
                    monitoring_active := monitoring_active g;
                    current_settings := Some settings;
                    latest_frame := latest_frame g |} in
        let g := start_monitoring g in
        (g, set_frame_callback d,
         {| status := 200; success := true; message := msg |}, ev)
    | (d, Returned false msg, ev) =>
        (g, d, {| status := 400; success := false; message := msg |}, ev)
    | (d, Raised, ev) =>
        (set_detection_active g false, d,
         {| status := 500; success := false; message := "Server error" |},
         ev)
    end.

(** Route [/stop]. *)
Definition stop_detection (g : Globals) (d : Detector)
  : Globals * Detector * Response * list Event :=
  if negb (detection_active g) then
    (g, d, {| status := 400; success := false;
              message := "Detection is not running" |}, [])
  else
    match ObjectDetector.stop_detection d with
    | (d, (true, msg), ev) =>
        ({| detection_active := false;
            monitoring_active := monitoring_active g;
            current_settings := None;
            latest_frame := None |}, d,
         {| status := 200; success := true; message := msg |}, ev)
    | (d, (false, msg), ev) =>
        (g, d, {| status := 400; success := false; message := msg |}, ev)
    end.

(** What one poll of the monitor meets: the time when it stamps the
    heartbeat, what a restart would meet, and the time when it reads
    the heartbeat age. *)
Record MonitorEnv := {
  mon_now : Q;
  mon_start : StartEnv;
  mon_age_now : Q
}.

(** The restart of lines 48-69, entered when the detector is not
    running. *)
Definition restart (g : Globals) (d : Detector) (env : MonitorEnv)
  : Globals * Detector * list Event :=
  match current_settings g with
  | Some settings =>
      if settings_truthy settings then
        let '(d, _, ev1) := ObjectDetector.stop_detection d in
        match ObjectDetector.start_detection d settings (mon_start env) with
        | (d, Returned true _, ev2) =>
            (g, set_frame_callback d,
             (EvRestartAttempt settings :: ev1 ++ ev2)%list)
        | (d, _, ev2) =>
            (clear_latest_frame (set_detection_active g false), d,
             (EvRestartAttempt settings :: ev1 ++ ev2)%list)
        end
      else (g, d, [])
  | None => (g, d, [])
  end.

(** Lines 71-74: the warning about the heartbeat age. *)
Definition heartbeat_status (d : Detector) (now : Q) : list Event :=
  let heartbeat_age := get_last_heartbeat_age d now in
  if Qgtb heartbeat_age (heartbeat_interval d * 2)
  then [EvHeartbeatWarning heartbeat_age]
  else [].

(** The body of the [while monitoring_active] loop of
    [monitor_detector]: one poll. *)
Definition monitor_poll (g : Globals) (d : Detector) (env : MonitorEnv)
  : Globals * Detector * list Event :=
  if detection_active g then
    let d := heartbeat d (mon_now env) in
    let '(g, d, ev) :=
      if negb (is_running d) then restart g d env else (g, d, []) in
    (g, d, (ev ++ heartbeat_status d (mon_age_now env))%list)
  else (g, d, []).

(** The frames handed to the callback reach [latest_frame]. *)
Fixpoint deliver (g : Globals) (ev : list Event) : Globals :=
  match ev with
  | [] => g
  | EvFrame f :: rest => deliver (update_latest_frame g f) rest
  | _ :: rest => deliver g rest
  end.

(** *** The whole process *)

(** The globals, the detector singleton and the local variables of the
    detection threads that are alive. *)
Record System := {
  globals : Globals;
  detector : Detector;
  workers : list LoopVars
}.

Definition init_system : System :=
  {| globals := init_globals; detector := init_detector; workers := [] |}.

(** The threads started by the events [ev]. *)
Definition spawned (ev : list Event) : list LoopVars :=
  flat_map (fun e => match e with EvThread => [init_loop] | _ => [] end) ev.

(** What can happen next: a request, a poll of the monitor, an iteration
    of the detection thread number [i], or the camera going away. *)
Inductive Action :=
| ActStart (settings : Settings) (authorization : option string)
           (env : StartEnv)
| ActStop
| ActMonitor (env : MonitorEnv)
| ActWorker (i : nat) (env : IterEnv)
| ActCameraDown.

Definition exec (s : System) (a : Action) : System * list Event :=
  match a with
  | ActStart settings authorization env =>
      let '(g, d, _, ev) :=
        start_detection (globals s) (detector s) settings authorization env in
      ({| globals := g; detector := d;
          workers := (workers s ++ spawned ev)%list |}, ev)
  | ActStop =>
      let '(g, d, _, ev) := stop_detection (globals s) (detector s) in
      ({| globals := g; detector := d; workers := workers s |}, ev)
  | ActMonitor env =>
      if monitoring_active (globals s) then
        let '(g, d, ev) := monitor_poll (globals s) (detector s) env in
        ({| globals := g; detector := d;
            workers := (workers s ++ spawned ev)%list |}, ev)
      else (s, [])
  | ActWorker i env =>
      match workers s !! i with
      | None => (s, [])
      | Some lv =>
          if negb (is_running (detector s)) then
            let '(d, ev) := loop_exit (detector s) in
            ({| globals := globals s; detector := d;
                workers := delete i (workers s) |}, ev)
          else
            let '(d, lv, ev, c) := loop_iter cfg (detector s) lv env in
            match c with
            | Continue =>
                ({| globals := deliver (globals s) ev; detector := d;
                    workers := <[i := lv]> (workers s) |}, ev)
            | Break =>
                let '(d, ev') := loop_exit d in
                ({| globals := deliver (globals s) ev; detector := d;
                    workers := delete i (workers s) |}, (ev ++ ev')%list)
            end
      end
  | ActCameraDown =>
      match cap (detector s) with
      | Some _ =>
          ({| globals := globals s;
              detector := set_cap (detector s) (Some {| cap_opened := false |});
              workers := workers s |}, [])
      | None => (s, [])
      end
  end.

Fixpoint run (s : System) (acts : list Action) : System * list Event :=
  match acts with
  | [] => (s, [])
  | a :: rest =>
      let '(s1, ev1) := exec s a in
      let '(s2, ev2) := run s1 rest in
      (s2, (ev1 ++ ev2)%list)
  end.

(** The states the process can be in. *)
Definition reachable (s : System) : Prop :=
  exists acts, fst (run init_system acts) = s.

End Routes.

(** The session state of the specification, read off the globals: a
  session is [Running] while [detection_active] holds; a session that is
  not active is [Stopped] when no settings are stored ([/stop] clears
  them) and [Failed] when the monitor gave up and left them in place. *)
Inductive SessionState := Stopped | Running | Failed.

Definition session_state (g : Globals) : SessionState :=
if detection_active g then Running
else match current_settings g with
     | Some _ => Failed
     | None => Stopped
     end.

(** *** Route [/test-camera] *)

(** The JSON body of a test request: the two keys the route reads, and
    whether the body holds any other key. [None] is an absent key. *)
Record TestData := {
  test_url : option string;
  test_port : option string;
  test_other_keys : bool
}.

(** Truth value of the body: a request without JSON or with an empty
    object is false. *)
Definition data_truthy (data : option TestData) : bool :=
  match data with
  | None => false
  | Some t => has_key (test_url t) || has_key (test_port t)
              || test_other_keys t
  end.

(** What [cap.read()] does in the test. *)
Inductive TestRead :=
| TestReadReturned (ret : bool)
| TestReadRaised (err : string).

Record TestEnv := {
  test_open : ObjectDetector.OpenResult;
  test_read : TestRead
}.

(** [str(stream_url)] *)
Definition str_of_stream_url (u : StreamUrl) : string :=
  match u with
  | Webcam index => PyStr.of_Z index
  | Url u => u
  end.

(** [test_camera]. The locator is formed by the statements of
    [start_detection] (lines 338-358 repeat lines 84-103). *)
Definition test_camera (data : option TestData) (env : TestEnv)
  : Response * list Event :=
  match data with
  | Some t =>
      if negb (data_truthy data) then
        ({| status := 400; success := false;
            message := "No camera data provided" |}, [])
      else
        let camera_url := default "" (test_url t) in
        let camera_port := default "" (test_port t) in
        if negb (PyStr.nonempty camera_url) then
          ({| status := 400; success := false;
              message := "Camera URL is required" |}, [])
        else
          let stream_url := ObjectDetector.locate camera_url camera_port in
          match test_open env with
          | ObjectDetector.OpenRaised err =>
              ({| status := 500; success := false;
                  message := "Error: " ++ err |},
               [EvCapture (Some stream_url)])
          | ObjectDetector.NotOpened =>
              ({| status := 400; success := false;
                  message := "Failed to connect to camera at "
                             ++ str_of_stream_url stream_url |},
               [EvCapture (Some stream_url)])
          | ObjectDetector.Opened =>
              match test_read env with
              | TestReadRaised err =>
                  ({| status := 500; success := false;
                      message := "Error: " ++ err |},
                   [EvCapture (Some stream_url)])
              | TestReadReturned true =>
                  ({| status := 200; success := true;
                      message := "Camera connection successful" |},
                   [EvCapture (Some stream_url); EvRelease])
              | TestReadReturned false =>
                  ({| status := 400; success := false;
                      message :=
                        "Connected to camera but failed to read frame" |},
                   [EvCapture (Some stream_url); EvRelease])
              end
          end
  | None =>
      ({| status := 400; success := false;
          message := "No camera data provided" |}, [])
  end.

(** *** [generate_frames] *)

(** What the MJPEG generator yields: the blank frame with a text, or the
    latest frame, each encoded as JPEG. *)
Inductive Chunk :=
| Placeholder (text : string)
| Picture (frame : Frame).

(** The target interval between two chunks, 0.033 s. *)
Definition frame_interval : Q := 33 # 1000.

(** One turn of the [while True] loop of [generate_frames]:
    [last_frame_time] is the local variable, [now] is [time.time()]. The
    result is the chunk yielded, if any, and the new [last_frame_time]. *)
Definition generate_frames (g : Globals) (last_frame_time now : Q)
  : option Chunk * Q :=
  let time_since_last_frame := (now - last_frame_time)%Q in
  if Qltb time_since_last_frame frame_interval then
    (None, last_frame_time)
  else
    let last_frame_time := now in
    if negb (detection_active g) || negb (has_key (latest_frame g)) then
      let text := if negb (detection_active g)
                  then "Camera feed not available"
                  else "Waiting for camera feed..." in
      (Some (Placeholder text), last_frame_time)
    else
      match latest_frame g with
      | Some frame => (Some (Picture frame), last_frame_time)
      | None => (None, last_frame_time)
      end.

(** [generate_frames] run against a sequence of states and clock
    readings: the chunks it yields, in order. *)
Fixpoint stream (last_frame_time : Q) (turns : list (Globals * Q))
  : list Chunk :=
  match turns with
  | [] => []
  | (g, now) :: rest =>
      match generate_frames g last_frame_time now with
      | (Some c, last) => c :: stream last rest
      | (None, last) => stream last rest
      end
  end.

(** *** Route [/health] *)

(** The answer of [health_check]; [thread_alive] tells whether the
    monitoring thread exists and is alive. *)
Record Health := {
  health_detection_active : bool;
  health_monitoring_active : bool;
  health_heartbeat_age : option Q
}.

Definition health_check (g : Globals) (d : Detector) (thread_alive : bool)
           (now : Q) : Health :=
  {| health_detection_active := detection_active g;
     health_monitoring_active := monitoring_active g && thread_alive;
     health_heartbeat_age :=
       if detection_active g
       then Some (ObjectDetector.get_last_heartbeat_age d now) else None |}.

End App.

(** ** The inputs of the scenario of the specification

    Start with locator "webcam://0", topic "alerts" and person alerts
    enabled; a "person" detection at confidence 0.92; a wall clock showing
    noon. *)

Definition scenario_settings : Settings :=
  {| ipCameraUrl := Some "webcam://0"; ipCameraPort := None;
     ntfyTopic := Some "alerts"; ntfyPriority := None;
     enablePersonDetection := Some true; userId := None;
     supabaseUrl := None; supabaseKey := None; enableLogging := None |}.

(** The model loads, the camera opens and the thread starts, at time 100. *)
Definition scenario_start : ObjectDetector.StartEnv :=
  {| ObjectDetector.start_now := 100;
     ObjectDetector.start_load := true;
     ObjectDetector.start_open := ObjectDetector.Opened;
     ObjectDetector.start_thread := true |}.

Definition scenario_person : Detection :=
  {| det_class := "person"; det_confidence := 92 # 100; det_box := [] |}.

Definition scenario_car : Detection :=
  {| det_class := "car"; det_confidence := 3 # 4; det_box := [] |}.

Definition noon : Clock := {| hour := 12; minute := 0; second := 0 |}.

(** The system once the scenario's start request has been served. *)
Definition scenario_system : App.System :=
  fst (App.run default_config App.init_system
         [App.ActStart scenario_settings None scenario_start]).

Definition scenario_dog : Detection :=
  {| det_class := "dog"; det_confidence := 1 # 2; det_box := [] |}.

(** Settings without a notification topic, with logging switched on and
    its credentials given. *)
Definition logging_settings : Settings :=
  {| ipCameraUrl := Some "webcam://0"; ipCameraPort := None;
     ntfyTopic := None; ntfyPriority := None;
     enablePersonDetection := Some true; userId := None;
     supabaseUrl := Some "https://db.example";
     supabaseKey := Some "key"; enableLogging := Some true |}.

(** The system after a second session: in the scenario's session a car
    is found at time 200 and notified; the session is stopped, and one
    with [logging_settings] is started. *)
Definition relaunched_system : App.System :=
  fst (App.run default_config scenario_system
         [App.ActWorker 0
            {| ObjectDetector.it_now := 200;
               ObjectDetector.it_open := ObjectDetector.Opened;
               ObjectDetector.it_read := ObjectDetector.ReadOk 1%N;
               ObjectDetector.it_read_seconds := 0;
               ObjectDetector.it_infer := Some [scenario_car];
               ObjectDetector.it_callback_ms := 200000;
               ObjectDetector.it_process_now := 200;
               ObjectDetector.it_wall := fun _ => noon |};
          App.ActStop;
          App.ActStart logging_settings None scenario_start]).

(** ** Observations on event lists *)

Import ObjectDetector App.

(** The notification requests made for the class [C]. *)
Definition is_notify_for (C : string) (e : Event) : bool :=
  match e with EvNotify c _ => String.eqb c C | _ => false end.

Definition notify_count (C : string) (ev : list Event) : nat :=
  length (flat_map (fun e => if is_notify_for C e then [e] else []) ev).

(** All notification requests, whatever the class. *)
Definition notifications (ev : list Event) : list (string * NotifyRequest) :=
  flat_map (fun e => match e with EvNotify c r => [(c, r)] | _ => [] end) ev.

(** The persistence writes. *)
Definition logged (ev : list Event) : list (string * Q) :=
  flat_map (fun e => match e with EvLog c q => [(c, q)] | _ => [] end) ev.

(** The number of [cv2.VideoCapture] calls. *)
Definition captures (ev : list Event) : nat :=
  length (flat_map (fun e => match e with EvCapture _ => [e] | _ => [] end) ev).

(** The restarts the monitor attempted. *)
Definition restarts (ev : list Event) : list Settings :=
  flat_map (fun e => match e with EvRestartAttempt s => [s] | _ => [] end) ev.

(** The heartbeat warnings of the monitor. *)
Definition warnings (ev : list Event) : list Q :=
  flat_map (fun e => match e with EvHeartbeatWarning a => [a] | _ => [] end) ev.

(** The persistence writes one detection leads to when no topic is
    configured. *)
Definition logged_without_topic (d : Detector) (t : Q) (det : Detection)
  : list (string * Q) :=
  if person_alert d (det_class det) then []
  else if cooldown_over d (det_class det) t && logging_on d
       then [(det_class det, det_confidence det)] else [].

(** An iteration of the detection loop that reaches the read, [last]
    being the time of the last detection: the read fails (it returns no
    frame within 10 s, or raises), or it returns a frame within 10 s. *)
Definition is_failed_read (cfg : Config) (last : Q) (env : IterEnv) : bool :=
  negb (Qltb (it_now env - last) (DETECTION_INTERVAL cfg)) &&
  match it_read env with
  | ReadRaised => true
  | ReadFailed => negb (Qgtb (it_read_seconds env) 10)
  | ReadOk _ => false
  end.

Definition is_good_read (cfg : Config) (last : Q) (env : IterEnv) : bool :=
  negb (Qltb (it_now env - last) (DETECTION_INTERVAL cfg)) &&
  match it_read env with
  | ReadOk _ => negb (Qgtb (it_read_seconds env) 10)
  | _ => false
  end.

(** A read that fails at time 200, with a camera that opens when asked. *)
Definition failing_read : IterEnv :=
  {| it_now := 200; it_open := Opened; it_read := ReadFailed;
     it_read_seconds := 0; it_infer := None; it_callback_ms := 0;
     it_process_now := 200; it_wall := fun _ => noon |}.

(** A read at time 200 that returns a frame, but only after 11 s. *)
Definition stuck_read : IterEnv :=
  {| it_now := 200; it_open := Opened; it_read := ReadOk 1%N;
     it_read_seconds := 11; it_infer := Some []; it_callback_ms := 200000;
     it_process_now := 200; it_wall := fun _ => noon |}.

(** A frame read at time 200 in which the engine finds a car. *)
Definition car_frame : IterEnv :=
  {| it_now := 200; it_open := Opened; it_read := ReadOk 1%N;
     it_read_seconds := 0; it_infer := Some [scenario_car];
     it_callback_ms := 200000; it_process_now := 200;
     it_wall := fun _ => noon |}.

(** A poll of the monitor at time 10000. *)
Definition late_poll : MonitorEnv :=
  {| mon_now := 10000; mon_start := scenario_start; mon_age_now := 10000 |}.

(** A poll at time 300 whose restart meets a camera that does not open. *)
Definition failing_poll : MonitorEnv :=
  {| mon_now := 300;
     mon_start := {| start_now := 302; start_load := true;
                     start_open := NotOpened; start_thread := true |};
     mon_age_now := 302 |}.

(** Start settings whose locator repeats the webcam prefix. *)
Definition nested_webcam_settings : Settings :=
  {| ipCameraUrl := Some "webcam://webcam://1"; ipCameraPort := None;
     ntfyTopic := None; ntfyPriority := None;
     enablePersonDetection := None; userId := None;
     supabaseUrl := None; supabaseKey := None; enableLogging := None |}.

(** The invariant of the process: an open capture is held only while the
    running flag is set, and the session is marked active only while it
    is set. *)
Definition flag_covers (s : System) : Prop :=
  (cap_is_open (detector s) = true -> is_running (detector s) = true)
  /\ (detection_active (globals s) = true -> is_running (detector s) = true).

(** The number of [release()] calls. *)
Definition releases (ev : list Event) : nat :=
  length (flat_map (fun e => match e with EvRelease => [e] | _ => [] end) ev).

(** The frames handed to the frame callback. *)
Definition frames (ev : list Event) : list Frame :=
  flat_map (fun e => match e with EvFrame f => [f] | _ => [] end) ev.

(** An iteration of the detection loop that finds the camera closed and
    whose reconnect yields a capture that is not open, [last] being the
    time of the last detection. *)
Definition is_failed_reconnect (cfg : Config) (last : Q) (env : IterEnv)
  : bool :=
  negb (Qltb (it_now env - last) (DETECTION_INTERVAL cfg)) &&
  match it_open env with NotOpened => true | _ => false end.

(** A reconnect at time 200 that yields a capture that is not open. *)
Definition failing_reconnect : IterEnv :=
  {| it_now := 200; it_open := NotOpened; it_read := ReadFailed;
     it_read_seconds := 0; it_infer := None; it_callback_ms := 0;
     it_process_now := 200; it_wall := fun _ => noon |}.

(** The scenario's detector once its camera has gone away. *)
Definition scenario_camera_down : Detector :=
  set_cap (detector scenario_system) (Some {| cap_opened := false |}).

(** [s.endswith(c)] for one character. *)
Fixpoint ends_with_char (c : ascii) (s : string) : bool :=
  match s with
  | EmptyString => false
  | String a EmptyString => Ascii.eqb a c
  | String _ s' => ends_with_char c s'
  end.

(** What the detection loop leaves alone in the detector: every
    attribute but the capture, the cooldown table and the time of the
    last frame hand-over. *)
Definition loop_keeps (d d' : Detector) : Prop :=
  model_loaded d' = model_loaded d
  /\ is_running d' = is_running d
  /\ stream_url d' = stream_url d
  /\ ntfy_topic d' = ntfy_topic d
  /\ ntfy_priority d' = ntfy_priority d
  /\ notification_cooldown d' = notification_cooldown d
  /\ user_id d' = user_id d
  /\ supabase_url d' = supabase_url d
  /\ supabase_key d' = supabase_key d
  /\ enable_logging d' = enable_logging d
  /\ frame_callback d' = frame_callback d
  /\ enable_person_detection d' = enable_person_detection d
  /\ last_heartbeat d' = last_heartbeat d
  /\ heartbeat_interval d' = heartbeat_interval d.

(** What holds of the detector in every state of the process: the two
    periods are those of [__init__], and a running detector has its model
    loaded. *)
Definition steady (d : Detector) : Prop :=
  notification_cooldown d = 60%Q
  /\ heartbeat_interval d = 5%Q
  /\ (is_running d = true -> model_loaded d = true).

(** * Properties *)

(** ** The string operations on examples *)

Example lower_Person : PyStr.lower "PerSon" = "person".
Proof. reflexivity. Qed.

Example remove_all_webcam : PyStr.remove_all "webcam://2" "webcam://" = "2".
Proof. reflexivity. Qed.

Example int_examples :
  PyStr.int " 12 " = Some 12 /\ PyStr.int "-3" = Some (-3) /\
  PyStr.int "1_0" = Some 10 /\ PyStr.int "1__0" = None /\
  PyStr.int "_1" = None /\ PyStr.int "1_" = None /\
  PyStr.int "" = None /\ PyStr.int "abc" = None /\ PyStr.int "007" = Some 7.
Proof. repeat split; reflexivity. Qed.

Example format_percent2_examples :
  PyStr.format_percent2 (92 # 100) = "92.00%" /\
  PyStr.format_percent2 (5 # 1000) = "0.50%" /\
  PyStr.format_percent2 1 = "100.00%" /\
  PyStr.format_percent2 (876543 # 1000000) = "87.65%".
Proof. repeat split; vm_compute; reflexivity. Qed.

Example strip_examples :
  PyStr.rstrip_char "/" "https://ntfy.sh//" = "https://ntfy.sh" /\
  PyStr.lstrip_char "/" "//alerts/" = "alerts/".
Proof. split; reflexivity. Qed.

(** ** Rounding *)

Lemma round_half_even_near (x : Q) (n : Z) :
  (inject_Z n - (1 # 2) < x)%Q -> (x < inject_Z n + (1 # 2))%Q ->
  PyStr.round_half_even x = n.
Proof.
  intros Hlo Hhi. unfold PyStr.round_half_even.
  pose proof (Qfloor_le x) as Hfl. pose proof (Qlt_floor x) as Hfu.
  rewrite inject_Z_plus in Hfu. change (inject_Z 1) with 1%Q in Hfu.
  assert (Hcases : Qfloor x = n - 1 \/ Qfloor x = n).
  { assert (H1 : (Qfloor x < n + 1)%Z).
    { rewrite Zlt_Qlt. rewrite inject_Z_plus. change (inject_Z 1) with 1%Q. lra. }
    assert (H2 : (n - 1 < Qfloor x + 1)%Z).
    { rewrite Zlt_Qlt. unfold Z.sub. rewrite !inject_Z_plus, inject_Z_opp.
      change (inject_Z 1) with 1%Q. lra. }
    lia. }
  destruct Hcases as [Hf | Hf]; rewrite Hf.
  - assert (Hc : (x - inject_Z (n - 1) ?= 1 # 2)%Q = Gt).
    { rewrite <- Qgt_alt. unfold Z.sub. rewrite inject_Z_plus, inject_Z_opp.
      change (inject_Z 1) with 1%Q. lra. }
    rewrite Hc. lia.
  - assert (Hc : (x - inject_Z n ?= 1 # 2)%Q = Lt).
    { rewrite <- Qlt_alt. lra. }
    rewrite Hc. reflexivity.
Qed.

(** A confidence that is 0.92 to four decimals is written "92.00%". *)
Lemma format_percent2_092 (q : Q) :
  (91995 # 100000 < q)%Q -> (q < 92005 # 100000)%Q ->
  PyStr.format_percent2 q = "92.00%".
Proof.
  intros Hlo Hhi. unfold PyStr.format_percent2.
  rewrite (round_half_even_near (q * 10000) 9200).
  - reflexivity.
  - change (inject_Z 9200) with 9200%Q. lra.
  - change (inject_Z 9200) with 9200%Q. lra.
Qed.

(** ** Comparisons *)

Lemma Qgtb_true x y : Qgtb x y = true <-> (y < x)%Q.
Proof.
  unfold Qgtb. rewrite negb_true_iff, <- not_true_iff_false, Qle_bool_iff.
  split; [apply Qnot_le_lt | apply Qlt_not_le].
Qed.

Lemma Qgtb_false x y : Qgtb x y = false <-> (x <= y)%Q.
Proof. unfold Qgtb. rewrite negb_false_iff. apply Qle_bool_iff. Qed.

Lemma Qltb_true x y : Qltb x y = true <-> (x < y)%Q.
Proof. apply Qgtb_true. Qed.


(** ** The notification throttle *)

Section Throttle.

Variable cfg : Config.

Lemma flat_map_app_length {A B} (f : A -> list B) (l1 l2 : list A) :
  length (flat_map f (l1 ++ l2)%list) =
  (length (flat_map f l1) + length (flat_map f l2))%nat.
Proof. rewrite flat_map_app, length_app. reflexivity. Qed.

Lemma truthy_Some o : PyStr.truthy o = true -> exists topic, o = Some topic.
Proof. destruct o; [eauto | discriminate]. Qed.

(** A call of [send_notification] with a topic makes one request, for
    the class it was called with. *)
Lemma send_notification_one d c q p now :
  PyStr.truthy (ntfy_topic d) = true ->
  exists r, send_notification cfg d c q p now = [EvNotify c r].
Proof.
  intros [topic Ht]%truthy_Some. unfold send_notification. rewrite Ht.
  destruct (String.eqb (PyStr.lower c) "person"); eauto.
Qed.

Lemma notify_count_send d c q p now :
  PyStr.truthy (ntfy_topic d) = true ->
  notify_count c (send_notification cfg d c q p now) = 1%nat.
Proof.
  intros H. destruct (send_notification_one d c q p now H) as [r ->].
  unfold notify_count. simpl. rewrite String.eqb_refl. reflexivity.
Qed.

Lemma notify_count_log d C c q : notify_count C (log_detection d c q) = 0%nat.
Proof. reflexivity. Qed.

Lemma notify_count_app C ev1 ev2 :
  notify_count C (ev1 ++ ev2)%list
  = (notify_count C ev1 + notify_count C ev2)%nat.
Proof. apply flat_map_app_length. Qed.

(** What one detection does, by the two tests of the loop body: is a
    notification due, and is the class in its cooldown. *)
Lemma process_detection_due d t det now :
  PyStr.truthy (ntfy_topic d) = true ->
  cooldown_over d (det_class det) t = true ->
  let '(d', ev) := process_detection cfg d t det now in
  last_notification_time d' = <[det_class det := t]> (last_notification_time d)
  /\ notification_cooldown d' = notification_cooldown d
  /\ ntfy_topic d' = ntfy_topic d
  /\ notify_count (det_class det) ev = 1%nat.
Proof.
  intros Ht Hc. unfold process_detection. rewrite Ht, Hc. simpl.
  destruct (person_alert d (det_class det)); simpl;
    rewrite notify_count_app, notify_count_send by assumption;
    (destruct (logging_on _); [rewrite notify_count_log | ]); auto.
Qed.

Lemma process_detection_cooling d t det now :
  cooldown_over d (det_class det) t = false ->
  process_detection cfg d t det now = (d, []).
Proof.
  intros Hc. unfold process_detection. rewrite Hc, andb_false_r.
  destruct (person_alert _ _); reflexivity.
Qed.

Lemma cooldown_over_after d C t1 t2 :
  cooldown_over
    (set_last_notification_time d (<[C := t1]> (last_notification_time d)))
    C t2
  = Qgtb (t2 - t1) (notification_cooldown d).
Proof.
  unfold cooldown_over. simpl. rewrite lookup_insert_eq. reflexivity.
Qed.

Lemma process_detections_single d det t wall :
  process_detections cfg d [det] t wall
  = (fst (process_detection cfg d t det (wall 0%nat)),
     (snd (process_detection cfg d t det (wall 0%nat)) ++ [])%list).
Proof.
  unfold process_detections. simpl.
  destruct (process_detection cfg d t det (wall 0%nat)); reflexivity.
Qed.

(** C2: for a class other than "person" and with a topic configured,
    two detections of the class, the first of which is due, lead to one
    notification request when they are less than the cooldown apart,
    and to two when they are more than the cooldown apart. *)
Theorem cooldown_two_detections d C det1 det2 t1 t2 wall1 wall2 :
  C <> "person" ->
  det_class det1 = C -> det_class det2 = C ->
  PyStr.truthy (ntfy_topic d) = true ->
  cooldown_over d C t1 = true ->
  let '(d1, ev1) := process_detections cfg d [det1] t1 wall1 in
  let '(d2, ev2) := process_detections cfg d1 [det2] t2 wall2 in
  ((t2 - t1 < notification_cooldown d)%Q ->
   notify_count C (ev1 ++ ev2)%list = 1%nat) /\
  ((notification_cooldown d < t2 - t1)%Q ->
   notify_count C (ev1 ++ ev2)%list = 2%nat).
Proof.
  intros _ <- HC Ht Hc.
  rewrite process_detections_single.
  pose proof (process_detection_due d t1 det1 (wall1 0%nat) Ht Hc) as H1.
  destruct (process_detection cfg d t1 det1 (wall1 0%nat)) as [d1 ev1].
  destruct H1 as (Htab & Hcd & Htop & Hn1). simpl fst; simpl snd.
  rewrite process_detections_single.
  assert (Hov : cooldown_over d1 (det_class det2) t2
                = Qgtb (t2 - t1) (notification_cooldown d)).
  { unfold cooldown_over. rewrite Htab, Hcd, HC, lookup_insert_eq.
    reflexivity. }
  rewrite !app_nil_r, !notify_count_app, Hn1.
  split; intros Hlt.
  - assert (Hf : cooldown_over d1 (det_class det2) t2 = false).
    { rewrite Hov. apply Qgtb_false. apply Qlt_le_weak, Hlt. }
    rewrite (process_detection_cooling _ _ _ _ Hf). reflexivity.
  - assert (Hd : cooldown_over d1 (det_class det2) t2 = true).
    { rewrite Hov. apply Qgtb_true, Hlt. }
    rewrite <- Htop in Ht.
    pose proof (process_detection_due d1 t2 det2 (wall2 0%nat) Ht Hd) as H2.
    destruct (process_detection cfg d1 t2 det2 (wall2 0%nat)) as [d2 ev2].
    destruct H2 as (_ & _ & _ & Hn2). simpl snd.
    rewrite <- HC, Hn2. reflexivity.
Qed.

(** *** Person alerts *)

Lemma notifications_app ev1 ev2 :
  notifications (ev1 ++ ev2)%list
  = (notifications ev1 ++ notifications ev2)%list.
Proof. apply flat_map_app. Qed.

Lemma logged_app ev1 ev2 :
  logged (ev1 ++ ev2)%list = (logged ev1 ++ logged ev2)%list.
Proof. apply flat_map_app. Qed.

Lemma notifications_log_tail d (b : bool) c q :
  notifications (if b then log_detection d c q else []) = [].
Proof. destruct b; reflexivity. Qed.

(** The request [send_notification] makes for a class that reads
    "person" in lower case. *)
Lemma send_notification_person d topic c q p now :
  ntfy_topic d = Some topic ->
  PyStr.lower c = "person" ->
  exists url,
    send_notification cfg d c q p now =
    [EvNotify c
       {| req_url := url; req_title := "Person Detected!";
          req_priority := "urgent"; req_tags := "warning,eyes,bell";
          req_body := "[" ++ strftime_HMS now
                        ++ "] A person was detected with "
                        ++ PyStr.format_percent2 q ++ " confidence" |}].
Proof.
  intros Ht Hp. unfold send_notification. rewrite Ht, Hp. simpl. eauto.
Qed.

(** The events of a person alert that is due. *)
Lemma person_alert_events d det t wall topic :
  PyStr.lower (det_class det) = "person" ->
  enable_person_detection d = true ->
  ntfy_topic d = Some topic -> PyStr.nonempty topic = true ->
  cooldown_over d (det_class det) t = true ->
  exists url,
    notifications (snd (process_detections cfg d [det] t wall)) =
    [(det_class det,
      {| req_url := url; req_title := "Person Detected!";
         req_priority := "urgent"; req_tags := "warning,eyes,bell";
         req_body := "[" ++ strftime_HMS (wall 0%nat)
                       ++ "] A person was detected with "
                       ++ PyStr.format_percent2 (det_confidence det)
                       ++ " confidence" |})].
Proof.
  intros Hp He Ht Hn Hc. rewrite process_detections_single. simpl snd.
  unfold process_detection, person_alert.
  rewrite Hp, He, Hc, Ht. simpl PyStr.truthy. rewrite Hn. simpl.
  destruct (send_notification_person d topic (det_class det)
              (det_confidence det) true (wall 0%nat) Ht Hp) as [url ->].
  exists url. rewrite app_nil_r, notifications_app, notifications_log_tail.
  reflexivity.
Qed.

(** C7: a person detection handled while person alerts are enabled, a
    topic is configured and the cooldown is over leads to one
    notification request, and its priority is "urgent" whatever
    [ntfy_priority] holds. *)
Theorem person_alert_is_urgent d det t wall :
  PyStr.lower (det_class det) = "person" ->
  enable_person_detection d = true ->
  PyStr.truthy (ntfy_topic d) = true ->
  cooldown_over d (det_class det) t = true ->
  exists r,
    notifications (snd (process_detections cfg d [det] t wall))
    = [(det_class det, r)]
    /\ req_priority r = "urgent".
Proof.
  intros Hp He Ht Hc.
  destruct (ntfy_topic d) as [topic|] eqn:Htopic; [| discriminate].
  destruct (person_alert_events d det t wall topic Hp He Htopic Ht Hc)
    as [url ->].
  eexists. split; reflexivity.
Qed.

(** Every request made for a class that reads "person" is urgent, in
    any frame and in any state. *)
Lemma person_requests_urgent k d t detections wall c r :
  In (c, r) (notifications (snd (process_from cfg k d t detections wall))) ->
  PyStr.lower c = "person" -> req_priority r = "urgent".
Proof.
  revert k d. induction detections as [|det rest IH]; intros k d Hin Hp.
  - destruct Hin.
  - simpl in Hin.
    destruct (process_detection cfg d t det (wall k)) as [d1 ev1] eqn:E1.
    destruct (process_from cfg (S k) d1 t rest wall) as [d2 ev2] eqn:E2.
    simpl in Hin. rewrite notifications_app in Hin.
    apply in_app_or in Hin. destruct Hin as [Hin | Hin].
    + clear IH E2. unfold process_detection in E1.
      assert (Hs : forall p, In (c, r) (notifications
                     (send_notification cfg d (det_class det)
                        (det_confidence det) p (wall k))) ->
                   req_priority r = "urgent").
      { intros p. unfold send_notification.
        destruct (String.eqb (PyStr.lower (det_class det)) "person") eqn:E;
          destruct (ntfy_topic d); simpl; try (intros []; fail).
        - intros [[= <- <-] | []]. reflexivity.
        - intros [[= <- <-] | []].
          apply String.eqb_neq in E. contradiction. }
      destruct (person_alert d (det_class det)).
      * destruct (PyStr.truthy (ntfy_topic d) && _);
          injection E1 as <- <-; [| destruct Hin].
        rewrite notifications_app, notifications_log_tail, app_nil_r in Hin.
        eauto.
      * destruct (cooldown_over d (det_class det) t);
          [| injection E1 as <- <-; destruct Hin].
        destruct (PyStr.truthy (ntfy_topic d)); injection E1 as <- <-.
        -- rewrite notifications_app, notifications_log_tail, app_nil_r in Hin.
           eauto.
        -- simpl app in Hin. rewrite notifications_log_tail in Hin.
           destruct Hin.
    + apply (IH (S k) d1); [rewrite E2 |]; assumption.
Qed.

(** *** The scenario message *)

Lemma contains_app_r a b sub :
  PyStr.contains b sub = true -> PyStr.contains (a ++ b) sub = true.
Proof.
  intros H. induction a as [|c a IH]; [exact H |].
  simpl. rewrite IH. apply orb_true_r.
Qed.

(** C8, as the code has it: the single "person" detection at confidence
    0.92 (to four decimals, which covers the floats next to 0.92),
    handled with person alerts enabled, a topic configured and the
    cooldown over, leads to exactly one notification request, with
    priority "urgent" and a body whose percentage reads "92.00%". *)
Theorem person_092_message d det t wall :
  det_class det = "person" ->
  (91995 # 100000 < det_confidence det)%Q ->
  (det_confidence det < 92005 # 100000)%Q ->
  enable_person_detection d = true ->
  PyStr.truthy (ntfy_topic d) = true ->
  cooldown_over d "person" t = true ->
  exists r,
    notifications (snd (process_detections cfg d [det] t wall))
    = [("person", r)]
    /\ req_priority r = "urgent"
    /\ req_body r = "[" ++ strftime_HMS (wall 0%nat)
                      ++ "] A person was detected with 92.00% confidence"
    /\ PyStr.contains (req_body r) "92.00%" = true.
Proof.
  intros Hcl Hlo Hhi He Ht Hc.
  destruct (ntfy_topic d) as [topic|] eqn:Htopic; [| discriminate].
  rewrite <- Hcl in Hc.
  destruct (person_alert_events d det t wall topic) as [url Hev];
    try assumption.
  { rewrite Hcl. reflexivity. }
  rewrite Hev, Hcl, (format_percent2_092 _ Hlo Hhi). eexists. split; [reflexivity |].
  split; [reflexivity |]. simpl req_body.
  split; [reflexivity |].
  apply contains_app_r. apply contains_app_r. reflexivity.
Qed.

(** *** When the cooldown table is written *)

Lemma set_last_notification_time_same d :
  set_last_notification_time d (last_notification_time d) = d.
Proof. destruct d; reflexivity. Qed.

Lemma process_detection_step d t det now :
  let '(d', ev) := process_detection cfg d t det now in
  (forall C, notify_count C ev = 0%nat ->
             last_notification_time d' !! C = last_notification_time d !! C)
  /\ d' = set_last_notification_time d (last_notification_time d')
  /\ (PyStr.truthy (ntfy_topic d) = false ->
      d' = d /\ logged ev = logged_without_topic d t det).
Proof.
  unfold process_detection, logged_without_topic.
  assert (Hsent : forall p C,
    PyStr.truthy (ntfy_topic d) = true ->
    notify_count C
      (send_notification cfg d (det_class det) (det_confidence det) p now
       ++ (if logging_on
                (set_last_notification_time d
                   (<[det_class det := t]> (last_notification_time d)))
           then log_detection
                  (set_last_notification_time d
                     (<[det_class det := t]> (last_notification_time d)))
                  (det_class det) (det_confidence det)
           else []))%list = 0%nat ->
    (<[det_class det := t]> (last_notification_time d)) !! C
    = last_notification_time d !! C).
  { intros p C Ht H0. rewrite notify_count_app in H0.
    destruct (send_notification_one d (det_class det) (det_confidence det)
                p now Ht) as [r Hr].
    rewrite Hr in H0. unfold notify_count in H0. simpl in H0.
    destruct (String.eqb_spec (det_class det) C) as [-> | Hne];
      [discriminate |].
    apply lookup_insert_ne. assumption. }
  destruct (person_alert d (det_class det)).
  - destruct (PyStr.truthy (ntfy_topic d)) eqn:Ht; simpl.
    + destruct (cooldown_over d (det_class det) t).
      * split; [intros C; apply (Hsent true C eq_refl) |].
        split; [reflexivity | discriminate].
      * split; [reflexivity |].
        split; [symmetry; apply set_last_notification_time_same |].
        discriminate.
    + split; [reflexivity |].
      split; [symmetry; apply set_last_notification_time_same |]. auto.
  - destruct (cooldown_over d (det_class det) t); simpl.
    + destruct (PyStr.truthy (ntfy_topic d)) eqn:Ht.
      * split; [intros C; apply (Hsent false C eq_refl) |].
        split; [reflexivity | discriminate].
      * split; [reflexivity |].
        split; [symmetry; apply set_last_notification_time_same |].
        intros _. split; [reflexivity |]. simpl.
        destruct (logging_on d); reflexivity.
    + split; [reflexivity |].
      split; [symmetry; apply set_last_notification_time_same |]. auto.
Qed.

Lemma process_from_step k d t detections wall :
  let '(d', ev) := process_from cfg k d t detections wall in
  (forall C, notify_count C ev = 0%nat ->
             last_notification_time d' !! C = last_notification_time d !! C)
  /\ (PyStr.truthy (ntfy_topic d) = false ->
      d' = d /\
      logged ev = flat_map (logged_without_topic d t) detections).
Proof.
  revert k d. induction detections as [|det rest IH]; intros k d; simpl.
  - auto.
  - pose proof (process_detection_step d t det (wall k)) as H1.
    destruct (process_detection cfg d t det (wall k)) as [d1 ev1].
    specialize (IH (S k) d1).
    destruct (process_from cfg (S k) d1 t rest wall) as [d2 ev2].
    destruct H1 as (Hn1 & Hd1 & Hoff1). destruct IH as (Hn2 & Hoff2).
    split.
    + intros C H0. rewrite notify_count_app in H0.
      rewrite Hn2, Hn1 by lia. reflexivity.
    + intros Ht. destruct (Hoff1 Ht) as [-> Hl1].
      destruct (Hoff2 Ht) as [-> Hl2].
      split; [reflexivity |]. rewrite logged_app, Hl1, Hl2. reflexivity.
Qed.

(** C9, as the code has it: [process_detections] changes the entry of
    a class in [last_notification_time] only if it requests a
    notification for that class. So without a topic the detector, and
    with it the table, is left as it is, and a detection that is not
    taken as a person alert is logged exactly when logging is on with
    its credentials and its class has no entry in the table or an entry
    older than the cooldown. With an empty table that is every such
    detection of every frame; an entry left by an earlier session with a
    topic still throttles the logging of its class. *)
Theorem table_written_with_notification d detections t wall :
  let '(d', ev) := process_detections cfg d detections t wall in
  (forall C, notify_count C ev = 0%nat ->
             last_notification_time d' !! C = last_notification_time d !! C)
  /\ (PyStr.truthy (ntfy_topic d) = false ->
      d' = d
      /\ logged ev =
         flat_map (fun det =>
                     if person_alert d (det_class det) then []
                     else if cooldown_over d (det_class det) t
                             && logging_on d
                          then [(det_class det, det_confidence det)]
                          else [])
                  detections
      /\ (last_notification_time d = ∅ -> logging_on d = true ->
          logged ev =
          flat_map (fun det => if person_alert d (det_class det) then []
                               else [(det_class det, det_confidence det)])
                   detections)).
Proof.
  unfold process_detections.
  pose proof (process_from_step 0 d t detections wall) as H.
  destruct (process_from cfg 0 d t detections wall) as [d' ev].
  destruct H as (Hn & Hoff). split; [exact Hn |].
  intros Ht. destruct (Hoff Ht) as [-> Hl]. split; [reflexivity |].
  split; [exact Hl |].
  intros Hempty Hlog. rewrite Hl. apply flat_map_ext. intros det.
  unfold logged_without_topic, cooldown_over.
  rewrite Hempty, lookup_empty, Hlog. reflexivity.
Qed.

End Throttle.

(** C9, as the specification has it, fails in a session without a topic
    that follows one with a topic: the table is not empty, the car
    notified at time 200 is still in it, and the car found at time 220
    is not logged although logging is on with its credentials. *)
Lemma stale_entry_throttles_logging :
  let d := detector relaunched_system in
  let '(d', ev) :=
    process_detections default_config d [scenario_car] 220 (fun _ => noon) in
  session_state (globals relaunched_system) = Running
  /\ PyStr.truthy (ntfy_topic d) = false
  /\ logging_on d = true
  /\ person_alert d (det_class scenario_car) = false
  /\ last_notification_time d !! "car" = Some 200%Q
  /\ last_notification_time d <> ∅
  /\ logged ev = [].
Proof.
  vm_compute. repeat split; try reflexivity. discriminate.
Qed.

(** C8, as the specification has it, fails: in the scenario the body of
    the one request reads "92.00%", and "92%" does not occur in it. *)
Lemma scenario_message_lacks_92_percent :
  ~ exists r,
      notifications
        (snd (process_detections default_config (detector scenario_system)
                [scenario_person] 1000 (fun _ => noon)))
      = [("person", r)]
      /\ req_priority r = "urgent"
      /\ PyStr.contains (req_body r) "92%" = true.
Proof.
  intros [r (Hr & _ & Hc)]. vm_compute in Hr.
  injection Hr as <-. vm_compute in Hc. discriminate.
Qed.
(** ** The capture watchdog *)

Section Watchdog.

Variable cfg : Config.

Lemma captures_app ev1 ev2 :
  captures (ev1 ++ ev2)%list = (captures ev1 + captures ev2)%nat.
Proof. apply flat_map_app_length. Qed.

Lemma captures_send d c q p now :
  captures (send_notification cfg d c q p now) = 0%nat.
Proof.
  unfold send_notification.
  destruct (String.eqb (PyStr.lower c) "person"), (ntfy_topic d); reflexivity.
Qed.

Lemma captures_process_detection d t det now :
  captures (snd (process_detection cfg d t det now)) = 0%nat.
Proof.
  unfold process_detection.
  destruct (person_alert d (det_class det)).
  - destruct (PyStr.truthy (ntfy_topic d) && _); [| reflexivity].
    simpl. rewrite captures_app, captures_send.
    destruct (logging_on _); reflexivity.
  - destruct (cooldown_over d (det_class det) t); [| reflexivity].
    destruct (PyStr.truthy (ntfy_topic d)); simpl.
    + rewrite captures_app, captures_send.
      destruct (logging_on _); reflexivity.
    + destruct (logging_on d); reflexivity.
Qed.

Lemma captures_process_from k d t detections wall :
  captures (snd (process_from cfg k d t detections wall)) = 0%nat.
Proof.
  revert k d. induction detections as [|det rest IH]; intros k d; simpl.
  - reflexivity.
  - pose proof (captures_process_detection d t det (wall k)) as H1.
    destruct (process_detection cfg d t det (wall k)) as [d1 ev1].
    specialize (IH (S k) d1).
    destruct (process_from cfg (S k) d1 t rest wall) as [d2 ev2].
    simpl in *. rewrite captures_app. lia.
Qed.

Lemma captures_publish d f ms : captures (snd (publish d f ms)) = 0%nat.
Proof.
  unfold publish. destruct (frame_callback d); [| reflexivity].
  destruct (last_callback_time d); [| reflexivity].
  destruct (33 <=? ms - z); reflexivity.
Qed.

(** A failed read with the camera open: the counter goes up, and on
    reaching the threshold it restarts from zero with one reconnect. *)
Lemma loop_iter_failed_read d lv env :
  cap_is_open d = true ->
  is_failed_read cfg (last_detection_time lv) env = true ->
  it_open env = Opened ->
  let '(d', lv', ev, c) := loop_iter cfg d lv env in
  c = Continue
  /\ is_running d' = is_running d
  /\ cap_is_open d' = true
  /\ last_detection_time lv' = last_detection_time lv
  /\ (if (max_consecutive_errors <=? S (consecutive_errors lv))%nat
      then consecutive_errors lv' = 0%nat /\ captures ev = 1%nat
      else consecutive_errors lv' = S (consecutive_errors lv)
           /\ captures ev = 0%nat).
Proof.
  intros Hopen Hfail Hre. unfold is_failed_read in Hfail.
  apply andb_prop in Hfail. destruct Hfail as [Htime Hread].
  apply negb_true_iff in Htime.
  unfold loop_iter. rewrite Htime, Hopen. simpl negb. cbv iota.
  assert (Hf : let '(d', lv', ev, c) := read_failure d lv env in
    c = Continue /\ is_running d' = is_running d /\ cap_is_open d' = true
    /\ last_detection_time lv' = last_detection_time lv
    /\ (if (max_consecutive_errors <=? S (consecutive_errors lv))%nat
        then consecutive_errors lv' = 0%nat /\ captures ev = 1%nat
        else consecutive_errors lv' = S (consecutive_errors lv)
             /\ captures ev = 0%nat)).
  { unfold read_failure.
    destruct (max_consecutive_errors <=? S (consecutive_errors lv))%nat.
    - rewrite Hre. unfold release, cap_is_open in *.
      destruct (cap d); [| discriminate]. simpl.
      repeat split; reflexivity.
    - simpl. repeat split; try reflexivity; assumption. }
  destruct (it_read env); [discriminate | |].
  - apply negb_true_iff in Hread. rewrite Hread. exact Hf.
  - exact Hf.
Qed.

Lemma detection_loop_cons d lv env rest :
  detection_loop cfg d lv (env :: rest) =
  if negb (is_running d) then
    let '(d, ev) := loop_exit d in (d, lv, ev, true)
  else
    let '(d, lv, ev, c) := loop_iter cfg d lv env in
    match c with
    | Break =>
        let '(d, ev') := loop_exit d in (d, lv, (ev ++ ev')%list, true)
    | Continue =>
        let '(d, lv, ev', finished) := detection_loop cfg d lv rest in
        (d, lv, (ev ++ ev')%list, finished)
    end.
Proof. reflexivity. Qed.

(** A run of failed reads, started with some errors counted. *)
Lemma detection_loop_failed_reads fails : forall d lv rest,
  is_running d = true ->
  cap_is_open d = true ->
  (consecutive_errors lv < max_consecutive_errors)%nat ->
  Forall (fun env => is_failed_read cfg (last_detection_time lv) env = true
                     /\ it_open env = Opened) fails ->
  exists d' lv' ev,
    is_running d' = true /\ cap_is_open d' = true
    /\ last_detection_time lv' = last_detection_time lv
    /\ consecutive_errors lv'
       = ((consecutive_errors lv + length fails) mod 10)%nat
    /\ captures ev = ((consecutive_errors lv + length fails) / 10)%nat
    /\ detection_loop cfg d lv (fails ++ rest)%list
       = (let '(d2, lv2, ev2, fin) := detection_loop cfg d' lv' rest in
          (d2, lv2, (ev ++ ev2)%list, fin)).
Proof.
  unfold max_consecutive_errors.
  induction fails as [|env fails IH]; intros d lv rest Hrun Hopen Hc Hall.
  - exists d, lv, []. simpl length. rewrite Nat.add_0_r.
    rewrite Nat.mod_small, Nat.div_small by assumption.
    repeat split; try assumption; try reflexivity.
    simpl. destruct (detection_loop cfg d lv rest) as [[[? ?] ?] ?].
    reflexivity.
  - inversion Hall as [|? ? [Hfail Hre] Hall']; subst.
    pose proof (loop_iter_failed_read d lv env Hopen Hfail Hre) as H1.
    rewrite <- app_comm_cons, detection_loop_cons, Hrun.
    destruct (loop_iter cfg d lv env) as [[[d1 lv1] ev1] c1].
    destruct H1 as (-> & Hrun1 & Hopen1 & Hldt1 & Hcnt).
    rewrite Hrun in Hrun1. rewrite <- Hldt1 in Hall'.
    unfold max_consecutive_errors in Hcnt.
    assert (Hc1 : (consecutive_errors lv1 < 10)%nat).
    { destruct (Nat.leb_spec 10 (S (consecutive_errors lv)));
        destruct Hcnt as [-> _]; lia. }
    destruct (IH d1 lv1 rest Hrun1 Hopen1 Hc1 Hall')
      as (d' & lv' & ev & Hr & Ho & Hl & He & Hcap & Heq).
    exists d', lv', (ev1 ++ ev)%list.
    repeat split; try assumption.
    + congruence.
    + rewrite He. simpl length.
      destruct (Nat.leb_spec 10 (S (consecutive_errors lv)));
        destruct Hcnt as [-> _].
      * replace (consecutive_errors lv + S (length fails))%nat
          with (length fails + 1 * 10)%nat by lia.
        rewrite Nat.Div0.mod_add. reflexivity.
      * f_equal. lia.
    + rewrite captures_app, Hcap. simpl length.
      destruct (Nat.leb_spec 10 (S (consecutive_errors lv)));
        destruct Hcnt as [-> ->].
      * replace (consecutive_errors lv + S (length fails))%nat
          with (length fails + 1 * 10)%nat by lia.
        rewrite Nat.div_add by lia. rewrite Nat.add_0_l. lia.
      * rewrite Nat.add_0_l. f_equal. lia.
    + simpl. rewrite Heq.
      destruct (detection_loop cfg d' lv' rest) as [[[? ?] ?] ?].
      rewrite app_assoc. reflexivity.
Qed.

(** A read that returns a frame resets the counter and reconnects
    nothing. *)
Lemma loop_iter_good_read d lv env :
  cap_is_open d = true ->
  is_good_read cfg (last_detection_time lv) env = true ->
  let '(d', lv', ev, c) := loop_iter cfg d lv env in
  c = Continue /\ consecutive_errors lv' = 0%nat /\ captures ev = 0%nat.
Proof.
  intros Hopen Hgood. unfold is_good_read in Hgood.
  apply andb_prop in Hgood. destruct Hgood as [Htime Hread].
  apply negb_true_iff in Htime.
  unfold loop_iter. rewrite Htime, Hopen. simpl negb. cbv iota.
  destruct (it_read env) as [frame| |]; try discriminate.
  apply negb_true_iff in Hread. rewrite Hread.
  unfold read_success. destruct (it_infer env) as [detections|].
  - pose proof (captures_publish d frame (it_callback_ms env)) as Hp.
    destruct (publish d frame (it_callback_ms env)) as [d1 ev1].
    destruct detections as [|det rest].
    + simpl in *. rewrite captures_app, Hp. auto.
    + pose proof (captures_process_from 0 d1 (it_process_now env)
                    (det :: rest) (it_wall env)) as Hq.
      unfold process_detections.
      destruct (process_from cfg 0 d1 (it_process_now env) (det :: rest)
                  (it_wall env)) as [d2 ev2].
      simpl in *. rewrite captures_app, Hp, Hq. auto.
  - auto.
Qed.

(** Below the threshold a failed read changes nothing but the counter. *)
Lemma loop_iter_failed_read_below d lv env :
  cap_is_open d = true ->
  is_failed_read cfg (last_detection_time lv) env = true ->
  (S (consecutive_errors lv) < max_consecutive_errors)%nat ->
  loop_iter cfg d lv env =
  (d, {| last_detection_time := last_detection_time lv;
         consecutive_errors := S (consecutive_errors lv);
         reconnect_attempts := reconnect_attempts lv |}, [], Continue).
Proof.
  intros Hopen Hfail Hlt. unfold is_failed_read in Hfail.
  apply andb_prop in Hfail. destruct Hfail as [Htime Hread].
  apply negb_true_iff in Htime.
  unfold loop_iter. rewrite Htime, Hopen. simpl negb. cbv iota.
  assert (Hf : read_failure d lv env =
               (d, {| last_detection_time := last_detection_time lv;
                      consecutive_errors := S (consecutive_errors lv);
                      reconnect_attempts := reconnect_attempts lv |},
                [], Continue)).
  { unfold read_failure.
    destruct (Nat.leb_spec max_consecutive_errors (S (consecutive_errors lv)));
      [lia | reflexivity]. }
  destruct (it_read env); [discriminate | |].
  - apply negb_true_iff in Hread. rewrite Hread. exact Hf.
  - exact Hf.
Qed.

(** Fewer failed reads than the threshold: no event at all, and the
    detector is as it was. *)
Lemma detection_loop_few_failed_reads fails : forall d lv rest,
  is_running d = true ->
  cap_is_open d = true ->
  (consecutive_errors lv + length fails < max_consecutive_errors)%nat ->
  Forall (fun env => is_failed_read cfg (last_detection_time lv) env = true)
         fails ->
  detection_loop cfg d lv (fails ++ rest)%list =
  detection_loop cfg d
    {| last_detection_time := last_detection_time lv;
       consecutive_errors := (consecutive_errors lv + length fails)%nat;
       reconnect_attempts := reconnect_attempts lv |} rest.
Proof.
  induction fails as [|env fails IH]; intros d lv rest Hrun Hopen Hlt Hall.
  - simpl. rewrite Nat.add_0_r. destruct lv; reflexivity.
  - inversion Hall as [|? ? Hfail Hall']; subst. simpl length in *.
    rewrite <- app_comm_cons, detection_loop_cons, Hrun. simpl negb. cbv iota.
    rewrite (loop_iter_failed_read_below d lv env Hopen Hfail) by lia.
    rewrite IH; try assumption; simpl; try lia.
    rewrite <- Nat.add_succ_r.
    destruct (detection_loop cfg d _ rest) as [[[? ?] ?] ?]. reflexivity.
Qed.

(** C6, as the code has it: with the camera open and no error counted,
    [N] consecutive failed reads are followed by a read that succeeds.
    For [N < 10] no reconnect is forced and the counter is zero after the
    read that succeeds. For any [N], the camera opening each time it is
    asked, a reconnect is attempted at every tenth failure, [N / 10] in
    all: exactly one for [10 <= N < 20], and more from [N = 20] on. *)
Theorem watchdog_reconnects d lv fails good :
  is_running d = true ->
  cap_is_open d = true ->
  consecutive_errors lv = 0%nat ->
  Forall (fun env => is_failed_read cfg (last_detection_time lv) env = true)
         fails ->
  is_good_read cfg (last_detection_time lv) good = true ->
  let '(d', lv', ev, finished) :=
    detection_loop cfg d lv (fails ++ [good])%list in
  ((length fails < max_consecutive_errors)%nat ->
   finished = false /\ consecutive_errors lv' = 0%nat
   /\ captures ev = 0%nat)
  /\ (Forall (fun env => it_open env = Opened) fails ->
      finished = false /\ consecutive_errors lv' = 0%nat
      /\ captures ev = (length fails / max_consecutive_errors)%nat
      /\ ((max_consecutive_errors <= length fails
           < 2 * max_consecutive_errors)%nat ->
          captures ev = 1%nat)).
Proof.
  intros Hrun Hopen Hzero Hall Hgood.
  destruct (detection_loop cfg d lv (fails ++ [good])%list)
    as [[[d' lv'] ev] finished] eqn:Erun.
  split.
  - intros HN.
    rewrite (detection_loop_few_failed_reads fails d lv [good] Hrun Hopen)
      in Erun by (try assumption; rewrite Hzero; exact HN).
    rewrite detection_loop_cons, Hrun in Erun. simpl negb in Erun.
    cbv iota in Erun.
    pose proof (loop_iter_good_read d
                  {| last_detection_time := last_detection_time lv;
                     consecutive_errors :=
                       (consecutive_errors lv + length fails)%nat;
                     reconnect_attempts := reconnect_attempts lv |}
                  good Hopen Hgood) as Hg.
    destruct (loop_iter cfg d _ good) as [[[d2 lv2] ev2] c2].
    destruct Hg as (-> & Herr & Hcap2). simpl in Erun.
    injection Erun as <- <- <- <-. rewrite app_nil_r. auto.
  - intros Hre.
    assert (Hboth : Forall (fun env =>
                      is_failed_read cfg (last_detection_time lv) env = true
                      /\ it_open env = Opened) fails).
    { clear - Hall Hre. induction fails as [|env fails IH]; constructor.
      - inversion Hall; inversion Hre; subst. split; assumption.
      - inversion Hall; inversion Hre; subst. apply IH; assumption. }
    assert (Hlt : (consecutive_errors lv < max_consecutive_errors)%nat).
    { rewrite Hzero. unfold max_consecutive_errors. lia. }
    destruct (detection_loop_failed_reads fails d lv [good] Hrun Hopen Hlt
                Hboth)
      as (d1 & lv1 & ev1 & Hrun1 & Hopen1 & Hldt & _ & Hcap & Heq).
    rewrite Heq in Erun. clear Heq.
    rewrite Hzero, Nat.add_0_l in Hcap. rewrite <- Hldt in Hgood.
    rewrite detection_loop_cons, Hrun1 in Erun. simpl negb in Erun.
    cbv iota in Erun.
    pose proof (loop_iter_good_read d1 lv1 good Hopen1 Hgood) as Hg.
    destruct (loop_iter cfg d1 lv1 good) as [[[d2 lv2] ev2] c2].
    destruct Hg as (-> & Herr & Hcap2). simpl in Erun.
    injection Erun as <- <- <- <-.
    rewrite captures_app, app_nil_r, Hcap, Hcap2, Nat.add_0_r.
    unfold max_consecutive_errors.
    split; [reflexivity |]. split; [assumption |]. split; [reflexivity |].
    intros [H10 H20].
    replace (length fails) with ((length fails - 10) + 1 * 10)%nat by lia.
    rewrite Nat.div_add by lia. rewrite Nat.div_small by lia. reflexivity.
Qed.

End Watchdog.

(** C6, as the specification has it, fails for twenty failures: the
    counter restarts from zero at the tenth, so that the twentieth forces
    a second reconnect. *)
Lemma twenty_failures_two_reconnects :
  let fails := repeat failing_read 20 in
  let '(_, _, ev, _) :=
    detection_loop default_config (detector scenario_system) init_loop fails in
  forallb (is_failed_read default_config 0) fails = true
  /\ (max_consecutive_errors <= length fails)%nat
  /\ captures ev = 2%nat
  /\ captures ev <> 1%nat.
Proof.
  vm_compute. split; [reflexivity |]. split; [lia |].
  split; [reflexivity | discriminate].
Qed.

(** ** The capture handle and the running flag *)

Section Handle.

Variable cfg : Config.

(** [process_detections] touches the cooldown table only. *)
Lemma process_from_table_only k d t detections wall :
  exists tab,
    fst (process_from cfg k d t detections wall)
    = set_last_notification_time d tab.
Proof.
  revert k d. induction detections as [|det rest IH]; intros k d; simpl.
  - exists (last_notification_time d).
    symmetry. apply set_last_notification_time_same.
  - pose proof (process_detection_step cfg d t det (wall k)) as H1.
    destruct (process_detection cfg d t det (wall k)) as [d1 ev1].
    destruct H1 as (_ & -> & _).
    destruct (IH (S k) (set_last_notification_time d
                          (last_notification_time d1))) as [tab Htab].
    destruct (process_from cfg (S k) _ t rest wall) as [d2 ev2].
    simpl in *. exists tab. rewrite Htab. reflexivity.
Qed.

Lemma publish_flags d f ms :
  is_running (fst (publish d f ms)) = is_running d
  /\ cap (fst (publish d f ms)) = cap d.
Proof.
  unfold publish. destruct (frame_callback d); [| auto].
  destruct (last_callback_time d) as [last|]; [| auto].
  destruct (33 <=? ms - last); auto.
Qed.

Lemma release_running d : is_running (fst (release d)) = is_running d.
Proof. unfold release. destruct (cap d); reflexivity. Qed.

(** An iteration of the loop leaves the running flag alone. *)
Lemma loop_iter_running d lv env :
  is_running (fst (fst (fst (loop_iter cfg d lv env)))) = is_running d.
Proof.
  assert (Hfail : is_running (fst (fst (fst (read_failure d lv env))))
                  = is_running d).
  { unfold read_failure.
    destruct (max_consecutive_errors <=? S (consecutive_errors lv))%nat;
      [| reflexivity].
    pose proof (release_running d) as Hr.
    destruct (release d) as [d1 ev1]. destruct (it_open env); exact Hr. }
  unfold loop_iter.
  destruct (Qltb _ _); [reflexivity |].
  destruct (negb (cap_is_open d)).
  - unfold reconnect. pose proof (release_running d) as Hr.
    destruct (release d) as [d1 ev1].
    destruct (it_open env); try exact Hr.
    destruct (max_reconnect_attempts <=? _)%nat; exact Hr.
  - destruct (it_read env) as [frame| |]; try exact Hfail.
    + destruct (Qgtb (it_read_seconds env) 10).
      * pose proof (release_running d) as Hr.
        destruct (release d) as [d1 ev1]. exact Hr.
      * unfold read_success. destruct (it_infer env) as [dets|];
          [| reflexivity].
        destruct (publish_flags d frame (it_callback_ms env)) as [Hp _].
        destruct (publish d frame (it_callback_ms env)) as [d1 ev1].
        simpl in Hp. destruct dets as [|det rest]; [exact Hp |].
        unfold process_detections.
        destruct (process_from_table_only 0 d1 (it_process_now env)
                    (det :: rest) (it_wall env)) as [tab Htab].
        destruct (process_from cfg 0 d1 (it_process_now env) (det :: rest)
                    (it_wall env)) as [d2 ev2].
        simpl in *. subst d2. exact Hp.
    + destruct (Qgtb (it_read_seconds env) 10); [| exact Hfail].
      pose proof (release_running d) as Hr.
      destruct (release d) as [d1 ev1]. exact Hr.
Qed.

Lemma start_detection_covers d settings env :
  (cap_is_open d = true -> is_running d = true) ->
  let '(d', out, _) := ObjectDetector.start_detection d settings env in
  (cap_is_open d' = true -> is_running d' = true)
  /\ (forall msg, out = Returned true msg -> is_running d' = true)
  /\ (is_running d = true -> d' = d).
Proof.
  intros Hinv. unfold ObjectDetector.start_detection.
  destruct (is_running d) eqn:Hrun.
  - repeat split; auto; discriminate.
  - assert (Hclosed : cap_is_open d = false).
    { destruct (cap_is_open d); [specialize (Hinv eq_refl); discriminate
                                | reflexivity]. }
    unfold load_model, heartbeat.
    destruct (model_loaded d) eqn:Hm; simpl; rewrite Hm; simpl.
    + destruct (start_open env); [destruct (start_thread env) | |];
        simpl; repeat split; try discriminate; auto;
        unfold cap_is_open; simpl; try discriminate;
        fold (cap_is_open d); rewrite Hclosed; discriminate.
    + destruct (start_load env); simpl.
      * destruct (start_open env); [destruct (start_thread env) | |];
          simpl; repeat split; try discriminate; auto;
          unfold cap_is_open; simpl; try discriminate;
          fold (cap_is_open d); rewrite Hclosed; discriminate.
      * repeat split; try discriminate.
        unfold cap_is_open; simpl. fold (cap_is_open d).
        rewrite Hclosed; discriminate.
Qed.

Lemma stop_detection_covers d :
  let '(d', r, _) := ObjectDetector.stop_detection d in
  (is_running d = true ->
   fst r = true /\ is_running d' = false /\ cap d' = None)
  /\ (is_running d = false -> d' = d /\ fst r = false).
Proof.
  unfold ObjectDetector.stop_detection.
  destruct (is_running d) eqn:Hrun; simpl.
  - destruct (cap d) eqn:Hcap; simpl; repeat split; auto; discriminate.
  - split; [discriminate | auto].
Qed.

Lemma loop_exit_flags d :
  is_running (fst (loop_exit d)) = is_running d
  /\ cap (fst (loop_exit d)) = None.
Proof. unfold loop_exit. destruct (cap d) eqn:E; simpl; auto. Qed.

Lemma deliver_active g ev :
  detection_active (deliver g ev) = detection_active g.
Proof.
  revert g. induction ev as [|e ev IH]; intros g; [reflexivity |].
  destruct e; simpl; rewrite IH; reflexivity.
Qed.

Lemma start_route_covers g d settings authorization env :
  flag_covers {| globals := g; detector := d; workers := [] |} ->
  let '(g', d', _, _) :=
    App.start_detection g d settings authorization env in
  flag_covers {| globals := g'; detector := d'; workers := [] |}.
Proof.
  intros [Hcap Hact]. simpl in Hcap, Hact. unfold App.start_detection.
  destruct (detection_active g) eqn:Ha;
    [split; simpl; [exact Hcap | intros _; exact (Hact eq_refl)] |].
  destruct (negb (PyStr.truthy (ipCameraUrl settings)));
    [split; simpl; [exact Hcap | rewrite Ha; discriminate] |].
  pose proof (start_detection_covers d (prepare settings authorization) env
                Hcap) as Hs.
  destruct (ObjectDetector.start_detection d
              (prepare settings authorization) env) as [[d' out] ev].
  destruct Hs as (Hcap' & Hok & _).
  destruct out as [[|] msg|]; split; simpl.
  - intros _. apply (Hok msg eq_refl).
  - intros _. apply (Hok msg eq_refl).
  - exact Hcap'.
  - rewrite Ha. discriminate.
  - exact Hcap'.
  - discriminate.
Qed.

Lemma stop_route_covers g d :
  flag_covers {| globals := g; detector := d; workers := [] |} ->
  let '(g', d', _, _) := App.stop_detection g d in
  flag_covers {| globals := g'; detector := d'; workers := [] |}.
Proof.
  intros [Hcap Hact]. simpl in Hcap, Hact. unfold App.stop_detection.
  destruct (detection_active g) eqn:Ha; simpl;
    [| split; simpl; [exact Hcap | rewrite Ha; discriminate]].
  pose proof (stop_detection_covers d) as Hs.
  destruct (ObjectDetector.stop_detection d) as [[d' [ok msg]] ev].
  destruct Hs as [Hs _]. destruct (Hs (Hact eq_refl)) as (Hok & Hrun & Hc).
  simpl in Hok. subst ok. split; simpl; [| discriminate].
  unfold cap_is_open. rewrite Hc. discriminate.
Qed.

Lemma monitor_poll_covers g d env :
  flag_covers {| globals := g; detector := d; workers := [] |} ->
  let '(g', d', _) := monitor_poll g d env in
  flag_covers {| globals := g'; detector := d'; workers := [] |}.
Proof.
  intros [Hcap Hact]. simpl in Hcap, Hact. unfold monitor_poll.
  destruct (detection_active g) eqn:Ha;
    [| split; simpl; [exact Hcap | rewrite Ha; discriminate]].
  specialize (Hact eq_refl).
  assert (Hrun : is_running (heartbeat d (mon_now env)) = true)
    by exact Hact.
  rewrite Hrun. simpl negb. cbv iota.
  split; simpl; intros; exact Hact.
Qed.

(** Every step keeps the invariant. *)
Lemma exec_covers s a : flag_covers s -> flag_covers (fst (exec cfg s a)).
Proof.
  intros Hinv. destruct s as [g d ws].
  assert (Hinv0 : flag_covers {| globals := g; detector := d; workers := [] |})
    by exact Hinv.
  destruct a as [settings authorization env| |env|i env|]; simpl.
  - pose proof (start_route_covers g d settings authorization env Hinv0) as H.
    destruct (App.start_detection g d settings authorization env)
      as [[[g' d'] r] ev]. exact H.
  - pose proof (stop_route_covers g d Hinv0) as H.
    destruct (App.stop_detection g d) as [[[g' d'] r] ev]. exact H.
  - destruct (monitoring_active g); [| exact Hinv].
    pose proof (monitor_poll_covers g d env Hinv0) as H.
    destruct (monitor_poll g d env) as [[g' d'] ev]. exact H.
  - destruct (ws !! i) as [lv|]; [| exact Hinv].
    destruct Hinv as [Hcap Hact]. simpl in Hcap, Hact.
    destruct (is_running d) eqn:Hrun; simpl negb; cbv iota.
    + pose proof (loop_iter_running d lv env) as Hr.
      destruct (loop_iter cfg d lv env) as [[[d1 lv1] ev1] c].
      simpl in Hr. rewrite Hrun in Hr. destruct c.
      * split; simpl; intros; exact Hr.
      * destruct (loop_exit_flags d1) as [He _].
        destruct (loop_exit d1) as [d2 ev2]. simpl in He.
        split; simpl; intros; congruence.
    + destruct (loop_exit_flags d) as [He Hc].
      destruct (loop_exit d) as [d2 ev2]. simpl in He, Hc.
      split; simpl.
      * unfold cap_is_open. rewrite Hc. discriminate.
      * intros Ha. specialize (Hact Ha). discriminate.
  - destruct Hinv as [Hcap Hact]. simpl in Hcap, Hact.
    destruct (cap d) eqn:Hc; split; simpl; auto; discriminate.
Qed.

Lemma run_covers acts : forall s,
  flag_covers s -> flag_covers (fst (run cfg s acts)).
Proof.
  induction acts as [|a acts IH]; intros s Hinv; [exact Hinv |].
  simpl. pose proof (exec_covers s a Hinv) as H1.
  destruct (exec cfg s a) as [s1 ev1]. specialize (IH s1 H1).
  destruct (run cfg s1 acts) as [s2 ev2]. exact IH.
Qed.

Lemma reachable_covers s : reachable cfg s -> flag_covers s.
Proof.
  intros [acts <-]. apply run_covers. split; discriminate.
Qed.

(** C3, as the code has it: in every state the process reaches, an open
    capture object is held only while the detector's running flag is
    set, and the session is marked active only while it is set. *)
Theorem open_capture_only_while_running s :
  reachable cfg s ->
  (cap_is_open (detector s) = true -> is_running (detector s) = true)
  /\ (session_state (globals s) = Running ->
      is_running (detector s) = true).
Proof.
  intros Hreach. destruct (reachable_covers s Hreach) as [Hcap Hact].
  split; [exact Hcap |]. intros Hs. apply Hact.
  unfold session_state in Hs.
  destruct (detection_active _); [reflexivity |].
  destruct (current_settings _); discriminate.
Qed.

End Handle.
(** C3, as the specification has it, fails: after a read that took too
    long the session is running and holds no capture object at all. *)
Lemma running_session_without_capture :
  let s := fst (run default_config init_system
                  [ActStart scenario_settings None scenario_start;
                   ActWorker 0 stuck_read]) in
  session_state (globals s) = Running
  /\ is_running (detector s) = true
  /\ cap (detector s) = None
  /\ ~ (has_key (cap (detector s)) = true
        <-> session_state (globals s) = Running).
Proof.
  vm_compute. repeat split; try reflexivity.
  intros [_ H]. specialize (H eq_refl). discriminate.
Qed.

(** ** A session stopped and started again *)

Section Restart.

Variable cfg : Config.




End Restart.

(** ** The heartbeat monitor *)

Section Monitor.

Lemma restarts_app ev1 ev2 :
  restarts (ev1 ++ ev2)%list = (restarts ev1 ++ restarts ev2)%list.
Proof. apply flat_map_app. Qed.

Lemma warnings_app ev1 ev2 :
  warnings (ev1 ++ ev2)%list = (warnings ev1 ++ warnings ev2)%list.
Proof. apply flat_map_app. Qed.

Lemma restarts_status d now : restarts (heartbeat_status d now) = [].
Proof. unfold heartbeat_status. destruct (Qgtb _ _); reflexivity. Qed.

Lemma warnings_status d now :
  warnings (heartbeat_status d now) =
  (if Qgtb (get_last_heartbeat_age d now) (heartbeat_interval d * 2)
   then [get_last_heartbeat_age d now] else []).
Proof. unfold heartbeat_status. destruct (Qgtb _ _); reflexivity. Qed.

(** The calls of the detector report neither restarts nor warnings. *)
Lemma start_detection_quiet d settings env :
  restarts (snd (ObjectDetector.start_detection d settings env)) = []
  /\ warnings (snd (ObjectDetector.start_detection d settings env)) = [].
Proof.
  unfold ObjectDetector.start_detection.
  destruct (is_running d); [auto |].
  destruct (negb _ && negb _); [auto |].
  destruct (start_open env); [destruct (start_thread env) | |]; auto.
Qed.

Lemma stop_detection_quiet d :
  restarts (snd (ObjectDetector.stop_detection d)) = []
  /\ warnings (snd (ObjectDetector.stop_detection d)) = [].
Proof.
  unfold ObjectDetector.stop_detection.
  destruct (negb (is_running d)); [auto |].
  destruct (cap _); auto.
Qed.

(** The restart of the monitor: the events it reports and the states it
    leaves, by the outcome of the start. *)
Lemma restart_outcome g d env settings :
  current_settings g = Some settings ->
  settings_truthy settings = true ->
  let '(d1, _, _) := ObjectDetector.stop_detection d in
  let '(d2, out, _) :=
    ObjectDetector.start_detection d1 settings (mon_start env) in
  let '(g', d', ev) := restart g d env in
  restarts ev = [settings] /\ warnings ev = []
  /\ match out with
     | Returned true _ => g' = g /\ d' = set_frame_callback d2
     | _ => g' = clear_latest_frame (set_detection_active g false)
            /\ d' = d2
     end.
Proof.
  intros Hs Ht. unfold restart. rewrite Hs, Ht.
  pose proof (stop_detection_quiet d) as [Hr1 Hw1].
  destruct (ObjectDetector.stop_detection d) as [[d1 r1] ev1].
  pose proof (start_detection_quiet d1 settings (mon_start env)) as [Hr2 Hw2].
  destruct (ObjectDetector.start_detection d1 settings (mon_start env))
    as [[d2 out] ev2].
  simpl in Hr1, Hw1, Hr2, Hw2.
  destruct out as [[|] msg|]; simpl;
    rewrite restarts_app, warnings_app, Hr1, Hw1, Hr2, Hw2; auto.
Qed.

Lemma restart_without_settings g d env :
  match current_settings g with
  | Some settings => settings_truthy settings = false
  | None => True
  end ->
  restart g d env = (g, d, []).
Proof.
  unfold restart. destruct (current_settings g) as [settings|]; [| auto].
  intros ->. reflexivity.
Qed.

(** C4, as the code has it: in a poll made while the session is marked
    active, the monitor stamps the heartbeat itself and then

    - leaves the detector alone when its running flag is set, however
      old the heartbeat was;
    - stops and starts the detector with the stored settings when the
      flag is not set and settings are stored;
    - does nothing but stamp the heartbeat when the flag is not set and
      no settings are stored;
    - warns exactly when the age it reads afterwards exceeds twice the
      interval.

    [is_heartbeat_active], which compares the age with three times the
    interval, has no part in it. *)
Theorem monitor_restarts_on_flag g d env :
  detection_active g = true ->
  let '(g', d', ev) := monitor_poll g d env in
  (is_running d = true ->
   g' = g /\ d' = heartbeat d (mon_now env) /\ restarts ev = [])
  /\ (forall settings,
        is_running d = false ->
        current_settings g = Some settings ->
        settings_truthy settings = true ->
        restarts ev = [settings]
        /\ let '(d1, _, _) :=
             ObjectDetector.stop_detection (heartbeat d (mon_now env)) in
           let '(d2, out, _) :=
             ObjectDetector.start_detection d1 settings (mon_start env) in
           d' = match out with
                | Returned true _ => set_frame_callback d2
                | _ => d2
                end)
  /\ warnings ev =
     (if Qgtb (get_last_heartbeat_age d' (mon_age_now env))
              (heartbeat_interval d' * 2)
      then [get_last_heartbeat_age d' (mon_age_now env)] else [])
  /\ (is_running d = false ->
      match current_settings g with
      | Some settings => settings_truthy settings = false
      | None => True
      end ->
      g' = g /\ d' = heartbeat d (mon_now env) /\ restarts ev = []).
Proof.
  intros Ha. unfold monitor_poll. rewrite Ha.
  change (is_running (heartbeat d (mon_now env))) with (is_running d).
  destruct (is_running d) eqn:Hrun; simpl negb; cbv iota.
  - split; [intros _; repeat split; try reflexivity;
              simpl app; apply restarts_status |].
    split; [intros s' [=] |].
    simpl app. split; [apply warnings_status | intros [=]].
  - destruct (current_settings g) as [settings|] eqn:Hs.
    + destruct (settings_truthy settings) eqn:Ht.
      * pose proof (restart_outcome g (heartbeat d (mon_now env)) env
                      settings Hs Ht) as Hr.
        destruct (ObjectDetector.stop_detection (heartbeat d (mon_now env)))
          as [[d1 r1] ev1].
        destruct (ObjectDetector.start_detection d1 settings (mon_start env))
          as [[d2 out] ev2] eqn:Estart.
        destruct (restart g (heartbeat d (mon_now env)) env)
          as [[g' d'] ev].
        destruct Hr as (Hr & Hw & Hst).
        assert (Hd : d' = match out with
                          | Returned true _ => set_frame_callback d2
                          | _ => d2
                          end).
        { destruct out as [[|] msg|]; destruct Hst; assumption. }
        split; [discriminate |]. split.
        -- intros s' _ [= <-] _. rewrite restarts_app, Hr, restarts_status.
           split; [reflexivity |]. rewrite Estart. exact Hd.
        -- split; [rewrite warnings_app, Hw; apply warnings_status |].
           intros _ Hf. discriminate Hf.
      * rewrite (restart_without_settings g _ env)
          by (rewrite Hs; exact Ht).
        split; [discriminate |]. split; [intros s' _ [= <-] Ht'; congruence |].
        simpl app. split; [apply warnings_status |].
        intros _ _. repeat split. apply restarts_status.
    + rewrite (restart_without_settings g _ env) by (rewrite Hs; exact I).
      split; [discriminate |]. split; [intros s' _ [=] |].
      simpl app. split; [apply warnings_status |].
      intros _ _. repeat split. apply restarts_status.
Qed.

(** C5: when the monitor's restart fails, that is when the start with
    the stored settings returns an error or raises, the session is left
    [Failed] and the frame slot is empty. *)
Theorem failed_restart_marks_failed g d env settings :
  detection_active g = true ->
  is_running d = false ->
  current_settings g = Some settings ->
  settings_truthy settings = true ->
  (forall msg,
     snd (fst (ObjectDetector.start_detection
                 (fst (fst (ObjectDetector.stop_detection
                              (heartbeat d (mon_now env)))))
                 settings (mon_start env)))
     <> Returned true msg) ->
  let '(g', d', ev) := monitor_poll g d env in
  session_state g' = Failed
  /\ detection_active g' = false
  /\ latest_frame g' = None
  /\ restarts ev = [settings].
Proof.
  intros Ha Hrun Hs Ht Hfail. unfold monitor_poll. rewrite Ha.
  change (is_running (heartbeat d (mon_now env))) with (is_running d).
  rewrite Hrun. simpl negb. cbv iota.
  pose proof (restart_outcome g (heartbeat d (mon_now env)) env
                settings Hs Ht) as Hr.
  destruct (ObjectDetector.stop_detection (heartbeat d (mon_now env)))
    as [[d1 r1] ev1].
  simpl in Hfail.
  destruct (ObjectDetector.start_detection d1 settings (mon_start env))
    as [[d2 out] ev2].
  simpl in Hfail.
  destruct (restart g (heartbeat d (mon_now env)) env) as [[g' d'] ev].
  destruct Hr as (Hr & Hw & Hst).
  assert (Hg : g' = clear_latest_frame (set_detection_active g false)).
  { destruct out as [[|] msg|]; try (destruct Hst; assumption).
    exfalso. apply (Hfail msg). reflexivity. }
  assert (Hstate : session_state g' = Failed).
  { rewrite Hg. unfold session_state. simpl. rewrite Hs. reflexivity. }
  rewrite restarts_app, Hr, restarts_status.
  split; [exact Hstate |]. rewrite Hg. repeat split; reflexivity.
Qed.

End Monitor.

(** C4, as the specification has it, fails: a session whose heartbeat is
    9900 s old, far beyond three times the interval of 5 s, is polled;
    the monitor stamps the heartbeat and neither restarts nor warns. *)
Lemma stale_heartbeat_no_restart :
  let s := scenario_system in
  let '(s', ev) := exec default_config s (ActMonitor late_poll) in
  session_state (globals s) = Running
  /\ monitoring_active (globals s) = true
  /\ Qgtb (get_last_heartbeat_age (detector s) 10000)
          (heartbeat_interval (detector s) * 3) = true
  /\ is_heartbeat_active (detector s) 10000 = false
  /\ ev = []
  /\ detector s' = heartbeat (detector s) 10000.
Proof. vm_compute. repeat split; reflexivity. Qed.

(** ** Webcam locators *)

(** C10 fails on the code for a suffix that repeats the prefix: every
    occurrence of "webcam://" is removed, not only the leading one, so
    the suffix "webcam://1", which is no integer, selects webcam 1. *)
Lemma nested_webcam_locator_selects_1 :
  let '(s, _) :=
    exec default_config init_system
      (ActStart nested_webcam_settings None scenario_start) in
  ipCameraUrl nested_webcam_settings = Some ("webcam://" ++ "webcam://1")
  /\ PyStr.int "webcam://1" = None
  /\ stream_url (detector s) = Some (Webcam 1)
  /\ session_state (globals s) = Running.
Proof. vm_compute. repeat split; reflexivity. Qed.

(** A locator with the webcam prefix is never refused: whatever follows
    the prefix, a webcam index is chosen, and it is 0 when what is left
    of the locator is empty or no integer. *)
Lemma webcam_locator_accepted camera_url camera_port :
  PyStr.startswith camera_url "webcam://" = true ->
  (exists index, locate camera_url camera_port = Webcam index)
  /\ (let rest := PyStr.remove_all camera_url "webcam://" in
      rest = "" \/ PyStr.int rest = None ->
      locate camera_url camera_port = Webcam 0).
Proof.
  intros Hp. unfold locate. rewrite Hp. split.
  - destruct (if PyStr.nonempty _ then _ else _); eauto.
  - intros [-> | Hnone]; [reflexivity |].
    destruct (PyStr.nonempty _); [rewrite Hnone |]; reflexivity.
Qed.
(** ** The theorems at the inputs of the scenario *)

Lemma cooldown_two_detections_witness :
  "car" <> "person"
  /\ PyStr.truthy (ntfy_topic (detector scenario_system)) = true
  /\ cooldown_over (detector scenario_system) "car" 1000 = true
  /\ let '(d1, ev1) :=
       process_detections default_config (detector scenario_system)
         [scenario_car] 1000 (fun _ => noon) in
     let '(d2, ev2) :=
       process_detections default_config d1 [scenario_car] 1030
         (fun _ => noon) in
     ((1030 - 1000 < notification_cooldown (detector scenario_system))%Q ->
      notify_count "car" (ev1 ++ ev2)%list = 1%nat)
     /\ ((notification_cooldown (detector scenario_system) < 1030 - 1000)%Q ->
         notify_count "car" (ev1 ++ ev2)%list = 2%nat).
Proof.
  split; [discriminate |]. split; [reflexivity |]. split; [reflexivity |].
  apply (cooldown_two_detections default_config (detector scenario_system)
           "car" scenario_car scenario_car 1000 1030
           (fun _ => noon) (fun _ => noon));
    [discriminate | reflexivity | reflexivity | reflexivity | reflexivity].
Defined.

Lemma person_alert_is_urgent_witness :
  PyStr.lower (det_class scenario_person) = "person"
  /\ enable_person_detection (detector scenario_system) = true
  /\ PyStr.truthy (ntfy_topic (detector scenario_system)) = true
  /\ cooldown_over (detector scenario_system) "person" 1000 = true
  /\ exists r,
       notifications
         (snd (process_detections default_config (detector scenario_system)
                 [scenario_person] 1000 (fun _ => noon)))
       = [("person", r)]
       /\ req_priority r = "urgent".
Proof.
  split; [reflexivity |]. split; [reflexivity |]. split; [reflexivity |].
  split; [reflexivity |].
  apply (person_alert_is_urgent default_config (detector scenario_system)
           scenario_person 1000 (fun _ => noon)); reflexivity.
Defined.

Lemma person_092_message_witness :
  det_class scenario_person = "person"
  /\ (91995 # 100000 < det_confidence scenario_person)%Q
  /\ (det_confidence scenario_person < 92005 # 100000)%Q
  /\ enable_person_detection (detector scenario_system) = true
  /\ PyStr.truthy (ntfy_topic (detector scenario_system)) = true
  /\ cooldown_over (detector scenario_system) "person" 1000 = true
  /\ exists r,
       notifications
         (snd (process_detections default_config (detector scenario_system)
                 [scenario_person] 1000 (fun _ => noon)))
       = [("person", r)]
       /\ req_priority r = "urgent"
       /\ req_body r = "[" ++ strftime_HMS noon
                         ++ "] A person was detected with 92.00% confidence"
       /\ PyStr.contains (req_body r) "92.00%" = true.
Proof.
  split; [reflexivity |]. split; [reflexivity |]. split; [reflexivity |].
  split; [reflexivity |]. split; [reflexivity |]. split; [reflexivity |].
  apply (person_092_message default_config (detector scenario_system)
           scenario_person 1000 (fun _ => noon)); reflexivity.
Defined.

Lemma table_written_with_notification_witness :
  let d := detector relaunched_system in
  PyStr.truthy (ntfy_topic d) = false
  /\ logging_on d = true
  /\ let '(d', ev) :=
       process_detections default_config d
         [scenario_car; scenario_dog; scenario_person] 220
         (fun _ => noon) in
     d' = d
     /\ logged ev =
        flat_map (fun det =>
                    if person_alert d (det_class det) then []
                    else if cooldown_over d (det_class det) 220
                            && logging_on d
                         then [(det_class det, det_confidence det)]
                         else [])
                 [scenario_car; scenario_dog; scenario_person]
     /\ logged ev = [("dog", 1 # 2)].
Proof.
  intros d.
  assert (Ht : PyStr.truthy (ntfy_topic d) = false) by reflexivity.
  split; [exact Ht |]. split; [reflexivity |].
  pose proof (table_written_with_notification default_config d
                [scenario_car; scenario_dog; scenario_person] 220
                (fun _ => noon)) as H.
  destruct (process_detections default_config d
              [scenario_car; scenario_dog; scenario_person] 220
              (fun _ => noon)) as [d' ev].
  destruct H as [_ H]. destruct (H Ht) as (Hd & Hl & _).
  split; [exact Hd |]. split; [exact Hl |].
  rewrite Hl. reflexivity.
Defined.

Lemma watchdog_reconnects_witness :
  is_running (detector scenario_system) = true
  /\ cap_is_open (detector scenario_system) = true
  /\ consecutive_errors init_loop = 0%nat
  /\ forallb (is_failed_read default_config (last_detection_time init_loop))
       (repeat failing_read 10) = true
  /\ is_good_read default_config (last_detection_time init_loop) car_frame
     = true
  /\ forallb (fun env => match it_open env with Opened => true | _ => false end)
       (repeat failing_read 10) = true
  /\ let '(d', lv', ev, finished) :=
       detection_loop default_config (detector scenario_system) init_loop
         (repeat failing_read 10 ++ [car_frame])%list in
     finished = false
     /\ consecutive_errors lv' = 0%nat
     /\ captures ev = 1%nat.
Proof.
  split; [reflexivity |]. split; [reflexivity |]. split; [reflexivity |].
  split; [reflexivity |]. split; [reflexivity |]. split; [reflexivity |].
  pose proof (watchdog_reconnects default_config (detector scenario_system)
                init_loop (repeat failing_read 10) car_frame
                eq_refl eq_refl eq_refl) as H.
  destruct (detection_loop default_config (detector scenario_system) init_loop
              (repeat failing_read 10 ++ [car_frame])%list)
    as [[[d' lv'] ev] finished].
  destruct H as [_ H].
  - simpl repeat. repeat constructor.
  - reflexivity.
  - destruct H as (Hf & He & _ & Hone).
    + simpl repeat. repeat constructor.
    + split; [exact Hf |]. split; [exact He |]. apply Hone.
      simpl. unfold max_consecutive_errors. lia.
Defined.

Lemma open_capture_only_while_running_witness :
  reachable default_config scenario_system
  /\ (cap_is_open (detector scenario_system) = true ->
      is_running (detector scenario_system) = true)
  /\ (session_state (globals scenario_system) = Running ->
      is_running (detector scenario_system) = true).
Proof.
  assert (H : reachable default_config scenario_system).
  { exists [ActStart scenario_settings None scenario_start]. reflexivity. }
  split; [exact H |].
  apply (open_capture_only_while_running default_config scenario_system H).
Defined.


Lemma monitor_restarts_on_flag_witness :
  detection_active (globals scenario_system) = true
  /\ let '(g', d', ev) :=
       monitor_poll (globals scenario_system) (detector scenario_system)
         late_poll in
     restarts ev = [] /\ warnings ev = [].
Proof.
  split; [reflexivity |].
  pose proof (monitor_restarts_on_flag (globals scenario_system)
                (detector scenario_system) late_poll eq_refl) as H.
  destruct (monitor_poll (globals scenario_system) (detector scenario_system)
              late_poll) as [[g' d'] ev].
  destruct H as (Hrun & _ & Hw & _).
  destruct (Hrun eq_refl) as (_ & Hd & Hr).
  split; [exact Hr |]. rewrite Hw, Hd. reflexivity.
Defined.

Lemma failed_restart_marks_failed_witness :
  let g := set_detection_active
             {| detection_active := false; monitoring_active := true;
                current_settings := Some scenario_settings;
                latest_frame := Some 1%N |} true in
  detection_active g = true
  /\ is_running init_detector = false
  /\ current_settings g = Some scenario_settings
  /\ settings_truthy scenario_settings = true
  /\ let '(g', d', ev) := monitor_poll g init_detector failing_poll in
     session_state g' = Failed
     /\ detection_active g' = false
     /\ latest_frame g' = None
     /\ restarts ev = [scenario_settings].
Proof.
  intros g.
  split; [reflexivity |]. split; [reflexivity |]. split; [reflexivity |].
  split; [reflexivity |].
  apply (failed_restart_marks_failed g init_detector failing_poll
           scenario_settings); try reflexivity.
  intros msg. discriminate.
Defined.

(** * Further properties of the code *)

(** ** The session routes *)

Section Session.

Variable cfg : Config.

Lemma start_route_success g d settings authorization env :
  let '(g', d', r, _) := App.start_detection g d settings authorization env in
  success r = true ->
  status r = 200%nat /\ detection_active g' = true
  /\ current_settings g' = Some (prepare settings authorization)
  /\ monitoring_active g' = true /\ frame_callback d' = true.
Proof.
  unfold App.start_detection.
  destruct (detection_active g); [discriminate |].
  destruct (negb (PyStr.truthy (ipCameraUrl settings))); [discriminate |].
  destruct (ObjectDetector.start_detection d (prepare settings authorization)
              env) as [[d' out] ev].
  destruct out as [[|] msg|]; simpl; try discriminate. auto.
Qed.

(** X1: a [/start] that follows a successful [/start] is refused with
    status 400, whatever its settings, and changes nothing. *)
Theorem second_start_rejected g d settings1 authorization1 env1
        settings2 authorization2 env2 :
  let '(g1, d1, r1, _) :=
    App.start_detection g d settings1 authorization1 env1 in
  success r1 = true ->
  App.start_detection g1 d1 settings2 authorization2 env2
  = (g1, d1, {| status := 400%nat; success := false;
                message := "Detection is already running" |}, []).
Proof.
  pose proof (start_route_success g d settings1 authorization1 env1) as H.
  destruct (App.start_detection g d settings1 authorization1 env1)
    as [[[g1 d1] r1] ev1].
  intros Hok. destruct (H Hok) as (_ & Ha & _).
  unfold App.start_detection. rewrite Ha. reflexivity.
Qed.

(** X2: a [/start] whose settings have no camera URL, or an empty one,
    is refused with status 400 before the detector is touched. *)
Theorem start_without_locator g d settings authorization env :
  PyStr.truthy (ipCameraUrl settings) = false ->
  let '(g', d', r, ev) :=
    App.start_detection g d settings authorization env in
  g' = g /\ d' = d /\ status r = 400%nat /\ success r = false /\ ev = [].
Proof.
  intros Hurl. unfold App.start_detection. rewrite Hurl.
  destruct (detection_active g); simpl; repeat split; reflexivity.
Qed.

(** X3: [/stop] on a running session of a reachable state answers 200
    and leaves the session stopped: the running flag is down, no capture
    object, no frame and no settings are kept. A second [/stop] is
    refused with status 400 and changes nothing. *)
Theorem stop_running_session s :
  reachable cfg s ->
  session_state (globals s) = Running ->
  let '(g, d, r, ev) := App.stop_detection (globals s) (detector s) in
  status r = 200%nat /\ session_state g = Stopped
  /\ is_running d = false /\ cap d = None
  /\ latest_frame g = None /\ current_settings g = None
  /\ App.stop_detection g d
     = (g, d, {| status := 400%nat; success := false;
                 message := "Detection is not running" |}, []).
Proof.
  intros Hreach Hs. destruct (reachable_covers cfg s Hreach) as [_ Hrun].
  unfold session_state in Hs. destruct s as [g d ws]. simpl in *.
  destruct (detection_active g) eqn:Ha;
    [| destruct (current_settings g); discriminate].
  specialize (Hrun eq_refl).
  unfold App.stop_detection at 1. rewrite Ha. simpl negb. cbv iota.
  pose proof (stop_detection_covers d) as Hstop.
  destruct (ObjectDetector.stop_detection d) as [[d1 [ok msg]] ev1].
  destruct Hstop as [Hstop _]. destruct (Hstop Hrun) as (Hok & Hr1 & Hc1).
  simpl in Hok. subst ok. repeat split; try assumption; reflexivity.
Qed.

End Session.

(** ** Stream locators *)

Lemma startswith_app s p :
  PyStr.startswith s p = true -> exists rest, s = p ++ rest.
Proof.
  unfold PyStr.startswith. revert s.
  induction p as [|a p IH]; intros s H.
  - exists s. reflexivity.
  - destruct s as [|b s]; [discriminate |]. simpl in H.
    destruct (ascii_dec a b) as [<- |]; [| discriminate].
    destruct (IH s H) as [rest ->]. exists rest. reflexivity.
Qed.

(** X4: for a locator that names its scheme (rtmp, srt, http or https)
    the port of the settings is never appended: the scheme's own colon
    makes the test [':' not in camera_url] fail. *)
Theorem port_ignored_with_scheme camera_url camera_port :
  PyStr.startswith camera_url "rtmp://"
  || PyStr.startswith camera_url "srt://"
  || PyStr.startswith camera_url "http://"
  || PyStr.startswith camera_url "https://" = true ->
  locate camera_url camera_port = Url camera_url.
Proof.
  intros H. unfold locate, with_port.
  destruct (PyStr.startswith camera_url "rtmp://") eqn:H1.
  { destruct (startswith_app _ _ H1) as [rest ->]. simpl.
    rewrite andb_false_r. reflexivity. }
  destruct (PyStr.startswith camera_url "srt://") eqn:H2.
  { destruct (startswith_app _ _ H2) as [rest ->]. simpl.
    rewrite andb_false_r. reflexivity. }
  destruct (PyStr.startswith camera_url "http://") eqn:H3.
  { destruct (startswith_app _ _ H3) as [rest ->]. simpl.
    rewrite andb_false_r. reflexivity. }
  destruct (PyStr.startswith camera_url "https://") eqn:H4;
    [| discriminate].
  destruct (startswith_app _ _ H4) as [rest ->]. simpl.
  rewrite andb_false_r. reflexivity.
Qed.
(** *** Webcam indices written in decimal *)

Lemma digits_cons c k b acc s :
  PyStr.digit_of c = Some k ->
  PyStr.digits acc b (String c s) = PyStr.digits (10 * acc + k) true s.
Proof. intros H. cbn [PyStr.digits]. rewrite H. reflexivity. Qed.

(** [PyStr.digits] reads a digit sequence as the number it writes. *)
Lemma digits_string_of_uint u : forall acc b d',
  acc = Z.of_N (DecimalPos.Unsigned.of_lu d') ->
  u <> Decimal.Nil \/ b = true ->
  PyStr.digits acc b (NilEmpty.string_of_uint u)
  = Some (Z.of_N (DecimalPos.Unsigned.of_lu (Decimal.revapp u d'))).
Proof.
  induction u as [|u IH|u IH|u IH|u IH|u IH|u IH|u IH|u IH|u IH|u IH];
    intros acc b d' Hacc Hb;
    [destruct Hb as [Hb | ->]; [congruence | subst acc; reflexivity] | ..];
    cbn [NilEmpty.string_of_uint Decimal.revapp];
    [ rewrite (digits_cons _ 0) by reflexivity
    | rewrite (digits_cons _ 1) by reflexivity
    | rewrite (digits_cons _ 2) by reflexivity
    | rewrite (digits_cons _ 3) by reflexivity
    | rewrite (digits_cons _ 4) by reflexivity
    | rewrite (digits_cons _ 5) by reflexivity
    | rewrite (digits_cons _ 6) by reflexivity
    | rewrite (digits_cons _ 7) by reflexivity
    | rewrite (digits_cons _ 8) by reflexivity
    | rewrite (digits_cons _ 9) by reflexivity ];
    (apply IH; [cbn [DecimalPos.Unsigned.of_lu]; lia | right; reflexivity]).
Qed.

Lemma rstrip_space_string_of_uint u :
  PyStr.rstrip_space (NilEmpty.string_of_uint u) = NilEmpty.string_of_uint u.
Proof.
  induction u; cbn [NilEmpty.string_of_uint PyStr.rstrip_space];
    [reflexivity | ..]; rewrite IHu;
    destruct (NilEmpty.string_of_uint u); reflexivity.
Qed.

Lemma digit_count_string_of_uint u :
  PyStr.digit_count (NilEmpty.string_of_uint u)
  = N.of_nat (String.length (NilEmpty.string_of_uint u)).
Proof.
  induction u;
    cbn [NilEmpty.string_of_uint PyStr.digit_count String.length];
    [reflexivity | ..]; rewrite IHu, Nat2N.inj_succ;
    change (match PyStr.digit_of _ with Some _ => 1%N | None => 0%N end)
      with 1%N; lia.
Qed.

Lemma int_string_of_uint u :
  u <> Decimal.Nil ->
  PyStr.int (NilEmpty.string_of_uint u)
  = PyStr.within_limit (NilEmpty.string_of_uint u)
      (Some (Z.of_N (N.of_uint u))).
Proof.
  intros Hu. unfold N.of_uint.
  rewrite DecimalPos.Unsigned.of_uint_alt. unfold Decimal.rev.
  rewrite <- (digits_string_of_uint u 0 false Decimal.Nil eq_refl
                (or_introl Hu)).
  unfold PyStr.int.
  assert (Hl : PyStr.lstrip_space (NilEmpty.string_of_uint u)
               = NilEmpty.string_of_uint u)
    by (destruct u; reflexivity).
  rewrite Hl, rstrip_space_string_of_uint.
  destruct u; [congruence | reflexivity ..].
Qed.

Lemma of_N_string_of_uint n :
  PyStr.of_N n = NilEmpty.string_of_uint (N.to_uint n)
  /\ N.to_uint n <> Decimal.Nil.
Proof.
  unfold PyStr.of_N, NilZero.string_of_uint.
  destruct n as [|p]; [split; [reflexivity | discriminate] |].
  pose proof (DecimalPos.Unsigned.to_uint_nonnil p) as Hp.
  unfold N.to_uint. split; [| exact Hp].
  destruct (Pos.to_uint p); [congruence | reflexivity ..].
Qed.

(** [int(str(n))] for a natural number: [n] itself unless [str(n)] has
    more digits than [int] accepts. *)
Lemma int_of_N n :
  PyStr.int (PyStr.of_N n)
  = if (PyStr.max_str_digits <? N.of_nat (String.length (PyStr.of_N n)))%N
    then None else Some (Z.of_N n).
Proof.
  destruct (of_N_string_of_uint n) as [-> Hn].
  rewrite (int_string_of_uint _ Hn), DecimalN.Unsigned.of_to.
  unfold PyStr.within_limit. rewrite digit_count_string_of_uint.
  reflexivity.
Qed.

Lemma remove_from_string_of_uint u :
  PyStr.remove_from "webcam://" 0 (NilEmpty.string_of_uint u)
  = NilEmpty.string_of_uint u.
Proof.
  induction u; cbn [NilEmpty.string_of_uint PyStr.remove_from];
    [reflexivity | ..]; cbn [String.prefix]; simpl ascii_dec; cbv iota;
    rewrite IHu; reflexivity.
Qed.

Lemma prefix_app p s : String.prefix p (p ++ s) = true.
Proof.
  induction p as [|a p IH]; [destruct s; reflexivity |].
  simpl. destruct (ascii_dec a a); [exact IH | congruence].
Qed.

Lemma webcam_index_cases (n : N) camera_port :
  locate ("webcam://" ++ PyStr.of_N n) camera_port
  = if (PyStr.max_str_digits <? N.of_nat (String.length (PyStr.of_N n)))%N
    then Webcam 0 else Webcam (Z.of_N n).
Proof.
  unfold locate, PyStr.startswith. rewrite prefix_app.
  assert (Hrem : PyStr.remove_all ("webcam://" ++ PyStr.of_N n) "webcam://"
                 = PyStr.of_N n).
  { unfold PyStr.remove_all.
    change ("webcam://" ++ PyStr.of_N n)
      with (String "w" ("ebcam://" ++ PyStr.of_N n)).
    cbn [PyStr.remove_from].
    change (String "w" ("ebcam://" ++ PyStr.of_N n))
      with ("webcam://" ++ PyStr.of_N n).
    rewrite prefix_app. simpl.
    destruct (of_N_string_of_uint n) as [-> _].
    apply remove_from_string_of_uint. }
  rewrite Hrem, int_of_N.
  assert (Hne : PyStr.nonempty (PyStr.of_N n) = true).
  { destruct (of_N_string_of_uint n) as [Hs Hn]. rewrite Hs.
    destruct (N.to_uint n); [congruence | reflexivity ..]. }
  rewrite Hne.
  destruct (PyStr.max_str_digits <? _)%N; reflexivity.
Qed.

(** X5: a locator made of the webcam prefix and a natural number
    written in decimal with at most 4300 digits, the most that [int]
    accepts, selects the webcam of that index, whatever the port. *)
Theorem webcam_index_round_trip (n : N) camera_port :
  (N.of_nat (String.length (PyStr.of_N n)) <= PyStr.max_str_digits)%N ->
  locate ("webcam://" ++ PyStr.of_N n) camera_port = Webcam (Z.of_N n).
Proof.
  intros Hlen. rewrite webcam_index_cases.
  destruct (N.ltb_spec PyStr.max_str_digits
              (N.of_nat (String.length (PyStr.of_N n)))); [lia | reflexivity].
Qed.

(** Beyond that number of digits [int] raises, and the index is 0. *)
Lemma webcam_index_beyond_limit (n : N) camera_port :
  (PyStr.max_str_digits < N.of_nat (String.length (PyStr.of_N n)))%N ->
  locate ("webcam://" ++ PyStr.of_N n) camera_port = Webcam 0.
Proof.
  intros Hlen. rewrite webcam_index_cases.
  destruct (N.ltb_spec PyStr.max_str_digits
              (N.of_nat (String.length (PyStr.of_N n)))); [reflexivity | lia].
Qed.

(** The number 10^4300 is written with 4301 digits: the index is 0. *)
Example webcam_4301_digits :
  N.of_nat (String.length (PyStr.of_N (10 ^ 4300))) = 4301%N
  /\ locate ("webcam://" ++ PyStr.of_N (10 ^ 4300)) "" = Webcam 0.
Proof.
  assert (H : (PyStr.max_str_digits
               < N.of_nat (String.length (PyStr.of_N (10 ^ 4300))))%N)
    by (vm_compute; reflexivity).
  split; [vm_compute; reflexivity |].
  apply webcam_index_beyond_limit. exact H.
Qed.

(** ** More on the notification throttle *)

Section ThrottleMore.

Variable cfg : Config.

Lemma notify_count_other d C c q p now :
  c <> C -> notify_count C (send_notification cfg d c q p now) = 0%nat.
Proof.
  intros Hne. unfold send_notification.
  destruct (String.eqb (PyStr.lower c) "person"), (ntfy_topic d);
    try reflexivity; unfold notify_count; simpl;
    (destruct (String.eqb_spec c C); [congruence | reflexivity]).
Qed.

(** One detection: either nothing is notified and the table stays, or
    the detection's own class is notified once and stamped. *)
Lemma process_detection_alternatives d t det now :
  let '(d', ev) := process_detection cfg d t det now in
  d' = set_last_notification_time d (last_notification_time d')
  /\ ((last_notification_time d' = last_notification_time d
       /\ forall C, notify_count C ev = 0%nat)
      \/ (last_notification_time d'
          = <[det_class det := t]> (last_notification_time d)
          /\ cooldown_over d (det_class det) t = true
          /\ notify_count (det_class det) ev = 1%nat
          /\ forall C, det_class det <> C -> notify_count C ev = 0%nat)).
Proof.
  assert (Hquiet : forall (b : bool) (d0 : Detector) C,
            notify_count C (if b then log_detection d0 (det_class det)
                                       (det_confidence det) else []) = 0%nat)
    by (intros [|] ? ?; reflexivity).
  unfold process_detection.
  destruct (person_alert d (det_class det)).
  - destruct (PyStr.truthy (ntfy_topic d)) eqn:Ht; simpl.
    + destruct (cooldown_over d (det_class det) t) eqn:Hc.
      * split; [reflexivity |]. right. split; [reflexivity |].
        split; [reflexivity |]. split.
        -- rewrite notify_count_app, notify_count_send, Hquiet by assumption.
           reflexivity.
        -- intros C Hne.
           rewrite notify_count_app, notify_count_other, Hquiet by assumption.
           reflexivity.
      * split; [symmetry; apply set_last_notification_time_same |]. auto.
    + split; [symmetry; apply set_last_notification_time_same |]. auto.
  - destruct (cooldown_over d (det_class det) t) eqn:Hc.
    + destruct (PyStr.truthy (ntfy_topic d)) eqn:Ht.
      * split; [reflexivity |]. right. split; [reflexivity |].
        split; [reflexivity |]. split.
        -- rewrite notify_count_app, notify_count_send, Hquiet by assumption.
           reflexivity.
        -- intros C Hne.
           rewrite notify_count_app, notify_count_other, Hquiet by assumption.
           reflexivity.
      * split; [symmetry; apply set_last_notification_time_same |].
        left. split; [reflexivity |]. intros C. simpl app. apply Hquiet.
    + split; [symmetry; apply set_last_notification_time_same |]. auto.
Qed.

(** A class stamped with the current time is not notified again in the
    frame. *)
Lemma stamped_class_is_quiet k d t detections wall C :
  (0 <= notification_cooldown d)%Q ->
  last_notification_time d !! C = Some t ->
  notify_count C (snd (process_from cfg k d t detections wall)) = 0%nat.
Proof.
  revert k d. induction detections as [|det rest IH]; intros k d Hcd Hst.
  - reflexivity.
  - simpl.
    pose proof (process_detection_alternatives d t det (wall k)) as H1.
    destruct (process_detection cfg d t det (wall k)) as [d1 ev1].
    destruct H1 as (Hd1 & Halt).
    assert (Hcd1 : (0 <= notification_cooldown d1)%Q)
      by (rewrite Hd1; exact Hcd).
    specialize (IH (S k) d1 Hcd1).
    destruct (process_from cfg (S k) d1 t rest wall) as [d2 ev2].
    simpl in *. rewrite notify_count_app.
    destruct Halt as [[Htab Hq] | (Htab & Hover & _ & Hq)].
    + rewrite Hq, IH by (rewrite Htab; exact Hst). reflexivity.
    + destruct (String.eqb_spec (det_class det) C) as [Heq | Hne].
      * exfalso. unfold cooldown_over in Hover. rewrite Heq, Hst in Hover.
        simpl in Hover. apply Qgtb_true in Hover.
        assert (t - t == 0)%Q by ring. lra.
      * rewrite (Hq C Hne), IH; [reflexivity |].
        rewrite Htab, lookup_insert_ne by assumption. exact Hst.
Qed.

Lemma one_notification_from k d t detections wall C :
  (0 <= notification_cooldown d)%Q ->
  (notify_count C (snd (process_from cfg k d t detections wall)) <= 1)%nat.
Proof.
  revert k d. induction detections as [|det rest IH]; intros k d Hcd.
  - unfold notify_count. simpl. lia.
  - simpl.
    pose proof (process_detection_alternatives d t det (wall k)) as H1.
    destruct (process_detection cfg d t det (wall k)) as [d1 ev1] eqn:E1.
    destruct H1 as (Hd1 & Halt).
    assert (Hcd1 : (0 <= notification_cooldown d1)%Q)
      by (rewrite Hd1; exact Hcd).
    pose proof (IH (S k) d1 Hcd1) as IH1.
    pose proof (stamped_class_is_quiet (S k) d1 t rest wall C Hcd1) as Hq1.
    destruct (process_from cfg (S k) d1 t rest wall) as [d2 ev2].
    simpl in *. rewrite notify_count_app.
    destruct Halt as [[Htab Hq] | (Htab & Hover & Hone & Hq)].
    + rewrite Hq. exact IH1.
    + destruct (String.eqb_spec (det_class det) C) as [Heq | Hne].
      * rewrite <- Heq in *. rewrite Hone, Hq1; [lia |].
        rewrite Htab. apply lookup_insert_eq.
      * rewrite (Hq C Hne). exact IH1.
Qed.

(** X6: whatever the detections of a frame are, [process_detections]
    requests at most one notification per class: the first request
    stamps the class with the frame's time, which starts its cooldown. *)
Theorem one_notification_per_class_per_frame d detections t wall C :
  (0 <= notification_cooldown d)%Q ->
  (notify_count C (snd (process_detections cfg d detections t wall)) <= 1)%nat.
Proof. apply one_notification_from. Qed.

(** X7: the cooldown is kept per class name: a frame without a
    detection of the class [C] leaves the entry of [C] alone, so that
    [C] is as due to notify after the frame as before. The names are
    compared as they are, so "Person" and "person" are two classes. *)
Theorem cooldown_is_per_class d detections t wall C t' :
  Forall (fun det => det_class det <> C) detections ->
  let d' := fst (process_detections cfg d detections t wall) in
  last_notification_time d' !! C = last_notification_time d !! C
  /\ cooldown_over d' C t' = cooldown_over d C t'.
Proof.
  unfold process_detections. generalize 0%nat as k. revert d.
  induction detections as [|det rest IH]; intros d k Hall.
  - split; reflexivity.
  - inversion Hall as [|? ? Hne Hall']; subst. simpl.
    pose proof (process_detection_alternatives d t det (wall k)) as H1.
    destruct (process_detection cfg d t det (wall k)) as [d1 ev1].
    destruct H1 as (Hd1 & Halt).
    specialize (IH d1 (S k) Hall').
    destruct (process_from cfg (S k) d1 t rest wall) as [d2 ev2].
    simpl in *. destruct IH as [IHl IHc].
    assert (Hl1 : last_notification_time d1 !! C
                  = last_notification_time d !! C).
    { destruct Halt as [[-> _] | (-> & _)]; [reflexivity |].
      apply lookup_insert_ne. assumption. }
    split; [congruence |]. rewrite IHc. unfold cooldown_over.
    rewrite Hl1, Hd1. reflexivity.
Qed.

(** X8: switching person alerts off does not silence them. A person
    detection then takes the path of the other classes: with a topic
    configured and the cooldown over it is still notified, still with
    the title and the priority of a person alert, and it is logged
    whenever logging is on. *)
Theorem person_alert_off_still_notifies d det t wall :
  PyStr.lower (det_class det) = "person" ->
  enable_person_detection d = false ->
  PyStr.truthy (ntfy_topic d) = true ->
  cooldown_over d (det_class det) t = true ->
  exists r,
    notifications (snd (process_detections cfg d [det] t wall))
    = [(det_class det, r)]
    /\ req_priority r = "urgent"
    /\ req_title r = "Person Detected!"
    /\ logged (snd (process_detections cfg d [det] t wall))
       = if logging_on d then [(det_class det, det_confidence det)] else [].
Proof.
  intros Hp He Ht Hc.
  destruct (ntfy_topic d) as [topic|] eqn:Htopic; [| discriminate].
  rewrite process_detections_single. simpl snd.
  unfold process_detection, person_alert.
  rewrite Hp, He, Hc, Htopic, Ht. simpl.
  destruct (send_notification_person cfg d topic (det_class det)
              (det_confidence det) false (wall 0%nat) Htopic Hp) as [url ->].
  eexists. rewrite app_nil_r, notifications_app, notifications_log_tail.
  split; [reflexivity |]. split; [reflexivity |]. split; [reflexivity |].
  rewrite logged_app. simpl logged at 1.
  change (logging_on (set_last_notification_time d _)) with (logging_on d).
  destruct (logging_on d); reflexivity.
Qed.

(** X9: [process_detections] writes nothing but the frame's time into
    the table: an entry after the frame is an entry from before or the
    time of the frame. So entries that were not in the future stay so. *)
Theorem table_entries_not_in_future d detections t wall :
  let d' := fst (process_detections cfg d detections t wall) in
  (forall C x, last_notification_time d' !! C = Some x ->
               last_notification_time d !! C = Some x \/ x = t)
  /\ ((forall C x, last_notification_time d !! C = Some x -> (x <= t)%Q) ->
      forall C x, last_notification_time d' !! C = Some x -> (x <= t)%Q).
Proof.
  assert (Hold : forall detections k d C x,
    last_notification_time (fst (process_from cfg k d t detections wall)) !! C
    = Some x ->
    last_notification_time d !! C = Some x \/ x = t).
  { clear. induction detections as [|det rest IH]; intros k d C x Hx.
    - left. exact Hx.
    - simpl in Hx.
      pose proof (process_detection_alternatives d t det (wall k)) as H1.
      destruct (process_detection cfg d t det (wall k)) as [d1 ev1].
      destruct H1 as (_ & Halt).
      specialize (IH (S k) d1 C x).
      destruct (process_from cfg (S k) d1 t rest wall) as [d2 ev2].
      simpl in *. destruct (IH Hx) as [Hx1 | ->]; [| right; reflexivity].
      destruct Halt as [[Htab _] | (Htab & _)]; rewrite Htab in Hx1.
      + left. exact Hx1.
      + destruct (String.eqb_spec (det_class det) C) as [<- | Hne].
        * rewrite lookup_insert_eq in Hx1. right. congruence.
        * rewrite lookup_insert_ne in Hx1 by assumption. left. exact Hx1. }
  split.
  - intros C x. apply Hold.
  - intros Hpast C x Hx. destruct (Hold _ _ _ _ _ Hx) as [Hx0 | ->].
    + apply (Hpast C x Hx0).
    + apply Qle_refl.
Qed.

End ThrottleMore.

(** ** The frame hand-over *)

(** X10: the frame callback gets at most one frame per 33 ms. With a
    callback registered, once a frame has been handed over at [ms1],
    the frame of time [ms2] is handed over exactly if
    [ms2 - ms1 >= 33]; a frame that comes sooner is dropped and leaves
    the time of the last hand-over as it is. *)
Theorem frames_throttled d f1 f2 ms1 ms2 :
  frame_callback d = true ->
  frames (snd (publish d f1 ms1)) = [f1] ->
  let d1 := fst (publish d f1 ms1) in
  frames (snd (publish d1 f2 ms2))
  = (if 33 <=? ms2 - ms1 then [f2] else [])
  /\ last_callback_time (fst (publish d1 f2 ms2))
     = Some (if 33 <=? ms2 - ms1 then ms2 else ms1).
Proof.
  intros Hcb Hfirst. unfold publish in *. rewrite Hcb in *.
  assert (H1 : (match last_callback_time d with
                | Some last =>
                    if 33 <=? ms1 - last
                    then (set_last_callback_time d (Some ms1), [EvFrame f1])
                    else (d, [])
                | None => (set_last_callback_time d (Some ms1), [EvFrame f1])
                end) = (set_last_callback_time d (Some ms1), [EvFrame f1])).
  { destruct (last_callback_time d) as [last|]; [| reflexivity].
    destruct (33 <=? ms1 - last); [reflexivity | discriminate]. }
  rewrite H1. simpl. rewrite Hcb.
  destruct (33 <=? ms2 - ms1); split; reflexivity.
Qed.
(** ** More on the detection loop *)

Section LoopMore.

Variable cfg : Config.

Lemma loop_keeps_refl d : loop_keeps d d.
Proof. repeat split. Qed.

Lemma loop_keeps_trans d1 d2 d3 :
  loop_keeps d1 d2 -> loop_keeps d2 d3 -> loop_keeps d1 d3.
Proof.
  unfold loop_keeps. intros H1 H2.
  repeat match goal with H : _ /\ _ |- _ => destruct H end.
  repeat split; congruence.
Qed.

Lemma set_cap_keeps d c : loop_keeps d (set_cap d c).
Proof. repeat split. Qed.

Lemma release_keeps d : loop_keeps d (fst (release d)).
Proof. unfold release. destruct (cap d); repeat split. Qed.

Lemma publish_keeps d f ms : loop_keeps d (fst (publish d f ms)).
Proof.
  unfold publish. destruct (frame_callback d); [| repeat split].
  destruct (last_callback_time d) as [last|]; [| repeat split].
  destruct (33 <=? ms - last); repeat split.
Qed.

Lemma process_detections_keeps d detections t wall :
  loop_keeps d (fst (process_detections cfg d detections t wall)).
Proof.
  unfold process_detections.
  destruct (process_from_table_only cfg 0 d t detections wall) as [tab ->].
  repeat split.
Qed.

Lemma loop_exit_keeps d : loop_keeps d (fst (loop_exit d)).
Proof. unfold loop_exit. destruct (cap d); repeat split. Qed.

Lemma loop_iter_keeps d lv env :
  loop_keeps d (fst (fst (fst (loop_iter cfg d lv env)))).
Proof.
  assert (Hrel : forall c, loop_keeps d (set_cap (fst (release d)) c)).
  { intros c. eapply loop_keeps_trans;
      [apply release_keeps | apply set_cap_keeps]. }
  assert (Hfail : loop_keeps d (fst (fst (fst (read_failure d lv env))))).
  { unfold read_failure.
    destruct (max_consecutive_errors <=? S (consecutive_errors lv))%nat;
      [| apply loop_keeps_refl].
    pose proof (release_keeps d) as Hr. specialize (Hrel).
    destruct (release d) as [d1 ev1]. simpl in *.
    destruct (it_open env); [apply Hrel | apply Hrel | exact Hr]. }
  unfold loop_iter.
  destruct (Qltb _ _); [apply loop_keeps_refl |].
  destruct (negb (cap_is_open d)).
  - unfold reconnect. pose proof (release_keeps d) as Hr.
    destruct (release d) as [d1 ev1]. simpl in Hr, Hrel.
    destruct (it_open env); [apply Hrel | | exact Hr].
    destruct (_ <=? _)%nat; apply Hrel.
  - destruct (it_read env) as [frame| |]; try exact Hfail.
    + destruct (Qgtb (it_read_seconds env) 10).
      * specialize (Hrel None). destruct (release d) as [d1 ev1]. exact Hrel.
      * unfold read_success. destruct (it_infer env) as [dets|];
          [| apply loop_keeps_refl].
        pose proof (publish_keeps d frame (it_callback_ms env)) as Hp.
        destruct (publish d frame (it_callback_ms env)) as [d1 ev1].
        simpl in Hp. destruct dets as [|det rest]; [exact Hp |].
        pose proof (process_detections_keeps d1 (det :: rest)
                      (it_process_now env) (it_wall env)) as Hq.
        destruct (process_detections cfg d1 (det :: rest)
                    (it_process_now env) (it_wall env)) as [d2 ev2].
        simpl in *. eapply loop_keeps_trans; eassumption.
    + destruct (Qgtb (it_read_seconds env) 10); [| exact Hfail].
      specialize (Hrel None). destruct (release d) as [d1 ev1]. exact Hrel.
Qed.

(** X11: however many iterations it runs and whatever it meets, the
    detection loop changes nothing in the detector but the capture, the
    cooldown table and the time of the last frame hand-over. It never
    lowers the running flag, and it never stamps the heartbeat: the
    heartbeat is the monitor's and [start_detection]'s alone. *)
Theorem detection_loop_keeps d lv envs :
  let d' := fst (fst (fst (detection_loop cfg d lv envs))) in
  loop_keeps d d'
  /\ is_running d' = is_running d
  /\ last_heartbeat d' = last_heartbeat d.
Proof.
  assert (H : loop_keeps d (fst (fst (fst (detection_loop cfg d lv envs))))).
  { revert d lv. induction envs as [|env rest IH]; intros d lv.
    - apply loop_keeps_refl.
    - rewrite detection_loop_cons. destruct (negb (is_running d)).
      + pose proof (loop_exit_keeps d) as He.
        destruct (loop_exit d) as [d1 ev1]. exact He.
      + pose proof (loop_iter_keeps d lv env) as Hi.
        destruct (loop_iter cfg d lv env) as [[[d1 lv1] ev1] c].
        simpl in Hi. destruct c.
        * specialize (IH d1 lv1).
          destruct (detection_loop cfg d1 lv1 rest) as [[[d2 lv2] ev2] fin].
          simpl in *. eapply loop_keeps_trans; eassumption.
        * pose proof (loop_exit_keeps d1) as He.
          destruct (loop_exit d1) as [d2 ev2]. simpl in *.
          eapply loop_keeps_trans; eassumption. }
  split; [exact H |]. unfold loop_keeps in H. tauto.
Qed.

(** A reconnect that yields a capture that is not open. *)
Lemma loop_iter_failed_reconnect d lv env :
  cap_is_open d = false ->
  is_failed_reconnect cfg (last_detection_time lv) env = true ->
  let '(d', lv', ev, c) := loop_iter cfg d lv env in
  loop_keeps d d' /\ cap_is_open d' = false
  /\ last_detection_time lv' = last_detection_time lv
  /\ reconnect_attempts lv' = S (reconnect_attempts lv)
  /\ captures ev = 1%nat
  /\ c = (if (max_reconnect_attempts <=? S (reconnect_attempts lv))%nat
          then Break else Continue).
Proof.
  intros Hopen Hfail. pose proof (loop_iter_keeps d lv env) as Hk.
  unfold is_failed_reconnect in Hfail.
  apply andb_prop in Hfail. destruct Hfail as [Htime Hre].
  apply negb_true_iff in Htime. revert Hk.
  unfold loop_iter. rewrite Htime, Hopen. simpl negb. cbv iota.
  unfold reconnect. destruct (it_open env); try discriminate.
  cbn [reconnect_attempts].
  destruct (max_reconnect_attempts <=? S (reconnect_attempts lv))%nat;
    unfold release; destruct (cap d) as [c0|];
    cbn [fst snd]; intros Hk; repeat split; reflexivity.
Qed.

Lemma detection_loop_failed_reconnects envs : forall d lv rest,
  is_running d = true ->
  cap_is_open d = false ->
  envs <> [] ->
  (reconnect_attempts lv + length envs = max_reconnect_attempts)%nat ->
  Forall (fun env =>
            is_failed_reconnect cfg (last_detection_time lv) env = true)
         envs ->
  let '(d', lv', ev, finished) :=
    detection_loop cfg d lv (envs ++ rest)%list in
  finished = true /\ is_running d' = true /\ cap d' = None
  /\ captures ev = length envs.
Proof.
  unfold max_reconnect_attempts.
  induction envs as [|env envs IH]; intros d lv rest Hrun Hopen Hne Hsum Hall;
    [congruence |].
  inversion Hall as [|? ? Hfail Hall']; subst. simpl length in *.
  rewrite <- app_comm_cons, detection_loop_cons, Hrun. simpl negb. cbv iota.
  pose proof (loop_iter_failed_reconnect d lv env Hopen Hfail) as H1.
  destruct (loop_iter cfg d lv env) as [[[d1 lv1] ev1] c1].
  destruct H1 as (Hk & Hopen1 & Hldt & Hatt & Hcap & ->).
  assert (Hrun1 : is_running d1 = true)
    by (unfold loop_keeps in Hk; destruct Hk as (_ & -> & _); exact Hrun).
  unfold max_reconnect_attempts.
  destruct envs as [|env2 envs].
  - simpl in Hsum.
    destruct (Nat.leb_spec 5 (S (reconnect_attempts lv))); [| lia].
    destruct (loop_exit_flags d1) as [He Hc].
    pose proof (loop_exit_keeps d1) as Hke.
    destruct (loop_exit d1) as [d2 ev2] eqn:Eexit. simpl in *.
    repeat split; try congruence.
    rewrite captures_app, Hcap. unfold loop_exit in Eexit.
    destruct (cap d1); injection Eexit as <- <-; reflexivity.
  - destruct (Nat.leb_spec 5 (S (reconnect_attempts lv)));
      [simpl in Hsum; lia |].
    rewrite <- Hldt in Hall'.
    assert (Hsum1 : (reconnect_attempts lv1 + length (env2 :: envs) = 5)%nat)
      by (rewrite Hatt; simpl in *; lia).
    specialize (IH d1 lv1 rest Hrun1 Hopen1 ltac:(discriminate) Hsum1 Hall').
    destruct (detection_loop cfg d1 lv1 ((env2 :: envs) ++ rest)%list)
      as [[[d2 lv2] ev2] fin].
    destruct IH as (-> & Hr2 & Hc2 & Hcap2).
    repeat split; try assumption.
    rewrite captures_app, Hcap, Hcap2. reflexivity.
Qed.

(** X12: with the camera closed, five reconnects in a row that yield a
    capture that is not open end the detection loop: the iterations
    that would follow are not run, the capture object is dropped, five
    captures were opened, and the running flag is still set. *)
Theorem reconnect_budget d lv envs rest :
  is_running d = true ->
  cap_is_open d = false ->
  reconnect_attempts lv = 0%nat ->
  length envs = max_reconnect_attempts ->
  Forall (fun env =>
            is_failed_reconnect cfg (last_detection_time lv) env = true)
         envs ->
  let '(d', lv', ev, finished) :=
    detection_loop cfg d lv (envs ++ rest)%list in
  finished = true /\ is_running d' = true /\ cap d' = None
  /\ captures ev = max_reconnect_attempts.
Proof.
  intros Hrun Hopen Hzero Hlen Hall.
  pose proof (detection_loop_failed_reconnects envs d lv rest Hrun Hopen) as H.
  rewrite Hzero, Hlen in H.
  assert (Hne : envs <> []) by (destruct envs; [discriminate | congruence]).
  specialize (H Hne eq_refl Hall).
  destruct (detection_loop cfg d lv (envs ++ rest)%list)
    as [[[d' lv'] ev] fin].
  exact H.
Qed.

End LoopMore.
(** ** What every state of the process satisfies *)

Section Steady.

Variable cfg : Config.

Lemma loop_keeps_steady d d' : loop_keeps d d' -> steady d -> steady d'.
Proof.
  unfold loop_keeps, steady. intros Hk (Hc & Hi & Hm).
  destruct Hk as (Hml & Hrun & _ & _ & _ & Hcd & _ & _ & _ & _ & _ & _ & _
                  & Hhi).
  split; [congruence |]. split; [congruence |].
  intros Hr. rewrite Hml. apply Hm. congruence.
Qed.

Lemma start_detection_steady d settings env :
  steady d ->
  steady (fst (fst (ObjectDetector.start_detection d settings env))).
Proof.
  intros Hs. unfold ObjectDetector.start_detection.
  destruct (is_running d) eqn:Hrun; [exact Hs |].
  destruct Hs as (Hc & Hi & _).
  unfold load_model, heartbeat.
  destruct (model_loaded d) eqn:Hl; simpl; rewrite Hl; simpl.
  - destruct (start_open env); [destruct (start_thread env) | |];
      repeat split; simpl; auto; rewrite Hrun; discriminate.
  - destruct (start_load env); simpl.
    + destruct (start_open env); [destruct (start_thread env) | |];
        repeat split; simpl; auto; rewrite Hrun; discriminate.
    + repeat split; simpl; auto. rewrite Hrun. discriminate.
Qed.

Lemma stop_detection_steady d :
  steady d -> steady (fst (fst (ObjectDetector.stop_detection d))).
Proof.
  intros Hs. unfold ObjectDetector.stop_detection.
  destruct (is_running d) eqn:Hrun; simpl; [| exact Hs].
  destruct Hs as (Hc & Hi & _).
  destruct (cap d); repeat split; simpl; auto; discriminate.
Qed.

Lemma set_frame_callback_steady d : steady d -> steady (set_frame_callback d).
Proof. intros H. exact H. Qed.

Lemma monitor_poll_steady g d env :
  steady d -> steady (snd (fst (monitor_poll g d env))).
Proof.
  intros Hs. unfold monitor_poll.
  destruct (detection_active g); [| exact Hs].
  assert (Hh : steady (heartbeat d (mon_now env))) by exact Hs.
  destruct (negb (is_running (heartbeat d (mon_now env)))); [| exact Hh].
  unfold restart. destruct (current_settings g) as [settings|]; [| exact Hh].
  destruct (settings_truthy settings); [| exact Hh].
  pose proof (stop_detection_steady _ Hh) as H1.
  destruct (ObjectDetector.stop_detection (heartbeat d (mon_now env)))
    as [[d1 r1] ev1]. simpl in H1.
  pose proof (start_detection_steady d1 settings (mon_start env) H1) as H2.
  destruct (ObjectDetector.start_detection d1 settings (mon_start env))
    as [[d2 out] ev2]. simpl in H2.
  destruct out as [[|] msg|]; exact H2.
Qed.

Lemma exec_steady s a :
  steady (detector s) -> steady (detector (fst (exec cfg s a))).
Proof.
  intros Hs. destruct s as [g d ws]. simpl in Hs.
  destruct a as [settings authorization env| |env|i env|]; simpl.
  - unfold App.start_detection.
    destruct (detection_active g); [exact Hs |].
    destruct (negb (PyStr.truthy (ipCameraUrl settings))); [exact Hs |].
    pose proof (start_detection_steady d (prepare settings authorization)
                  env Hs) as H.
    destruct (ObjectDetector.start_detection d
                (prepare settings authorization) env) as [[d' out] ev].
    destruct out as [[|] msg|]; exact H.
  - unfold App.stop_detection.
    destruct (negb (detection_active g)); [exact Hs |].
    pose proof (stop_detection_steady d Hs) as H.
    destruct (ObjectDetector.stop_detection d) as [[d' [[|] msg]] ev];
      exact H.
  - destruct (monitoring_active g); [| exact Hs].
    pose proof (monitor_poll_steady g d env Hs) as H.
    destruct (monitor_poll g d env) as [[g' d'] ev]. exact H.
  - destruct (ws !! i) as [lv|]; [| exact Hs].
    destruct (negb (is_running d)).
    + pose proof (loop_exit_keeps d) as He.
      destruct (loop_exit d) as [d' ev]. simpl in *.
      apply (loop_keeps_steady d d' He Hs).
    + pose proof (loop_iter_keeps cfg d lv env) as Hk.
      destruct (loop_iter cfg d lv env) as [[[d1 lv1] ev1] c].
      simpl in Hk. pose proof (loop_keeps_steady d d1 Hk Hs) as H1.
      destruct c; [exact H1 |].
      pose proof (loop_exit_keeps d1) as He.
      destruct (loop_exit d1) as [d2 ev2]. simpl in *.
      apply (loop_keeps_steady d1 d2 He H1).
  - destruct (cap d); exact Hs.
Qed.

Lemma reachable_steady s : reachable cfg s -> steady (detector s).
Proof.
  intros [acts <-].
  assert (H0 : steady (detector init_system))
    by (repeat split; discriminate).
  revert H0. generalize init_system as s.
  induction acts as [|a acts IH]; intros s Hs; [exact Hs |].
  simpl. pose proof (exec_steady s a Hs) as H1.
  destruct (exec cfg s a) as [s1 ev1]. specialize (IH s1 H1).
  destruct (run cfg s1 acts) as [s2 ev2]. exact IH.
Qed.

(** X13: in every state the process reaches the notification cooldown
    is 60 s and the heartbeat interval is 5 s: no request, poll or loop
    iteration assigns them. *)
Theorem periods_are_constant s :
  reachable cfg s ->
  notification_cooldown (detector s) = 60%Q
  /\ heartbeat_interval (detector s) = 5%Q.
Proof.
  intros Hreach. destruct (reachable_steady s Hreach) as (Hc & Hi & _).
  split; assumption.
Qed.

(** X14: in every state the process reaches, a detector whose running
    flag is set has its model loaded, so that the detection loop never
    calls a model that is [None]. *)
Theorem running_detector_has_model s :
  reachable cfg s ->
  is_running (detector s) = true -> model_loaded (detector s) = true.
Proof.
  intros Hreach. destruct (reachable_steady s Hreach) as (_ & _ & Hm).
  exact Hm.
Qed.

Lemma spawned_status d now : spawned (heartbeat_status d now) = [].
Proof. unfold heartbeat_status. destruct (Qgtb _ _); reflexivity. Qed.

(** X15: with requests, polls and loop iterations taken as atomic
    steps, a poll of the monitor never restarts the detector: the
    running flag is lowered by [stop_detection] alone, and [/stop] marks
    the session inactive in the same step. A poll changes nothing but
    the heartbeat, also when the detection loop has ended on its own. *)
Theorem monitor_never_restarts s env :
  reachable cfg s ->
  let '(s', ev) := exec cfg s (ActMonitor env) in
  restarts ev = []
  /\ globals s' = globals s
  /\ workers s' = workers s
  /\ (detector s' = detector s
      \/ detector s' = heartbeat (detector s) (mon_now env)).
Proof.
  intros Hreach. destruct (reachable_covers cfg s Hreach) as [_ Hact].
  destruct s as [g d ws]. simpl in *.
  destruct (monitoring_active g); [| repeat split; auto].
  unfold monitor_poll.
  destruct (detection_active g); [| simpl; rewrite app_nil_r; auto].
  change (is_running (heartbeat d (mon_now env))) with (is_running d).
  rewrite (Hact eq_refl). simpl.
  rewrite restarts_status, spawned_status, app_nil_r. auto.
Qed.

End Steady.

(** ** The model *)

(** ** The video stream *)

(** X17: the MJPEG generator shows a frame only while the session is
    marked active, and then the latest one: every picture it yields is
    the [latest_frame] of an active state it was run against. A frame
    left over in the slot of an inactive session is never shown. *)
Theorem stream_shows_only_live_frames last turns f :
  In (Picture f) (stream last turns) ->
  exists g now,
    In (g, now) turns
    /\ detection_active g = true /\ latest_frame g = Some f.
Proof.
  revert last. induction turns as [|[g now] rest IH]; intros last Hin.
  - destruct Hin.
  - simpl in Hin.
    assert (Hrest : forall l, In (Picture f) (stream l rest) ->
              exists g0 now0, In (g0, now0) ((g, now) :: rest)
                /\ detection_active g0 = true /\ latest_frame g0 = Some f).
    { intros l Hl. destruct (IH l Hl) as (g0 & now0 & H0 & H1).
      exists g0, now0. split; [right; exact H0 | exact H1]. }
    unfold generate_frames in Hin.
    destruct (Qltb (now - last) frame_interval); [eauto |].
    destruct (detection_active g) eqn:Ha; simpl in Hin.
    + destruct (latest_frame g) as [f0|] eqn:Hf; simpl in Hin.
      * destruct Hin as [[= <-] | Hin]; [| eauto].
        exists g, now. split; [left; reflexivity | split; assumption].
      * destruct Hin as [Hin | Hin]; [discriminate | eauto].
    + destruct Hin as [Hin | Hin]; [discriminate | eauto].
Qed.

(** X18: the generator is paced by the time of its last chunk: the
    turns made less than 33 ms after it yield nothing, the first turn
    made 33 ms after it or later yields one chunk, and the pacing goes
    on from the time of that turn. *)
Theorem stream_is_paced last early g now rest :
  Forall (fun turn => (snd turn - last < frame_interval)%Q) early ->
  (frame_interval <= now - last)%Q ->
  exists c, stream last (early ++ (g, now) :: rest)%list
            = c :: stream now rest.
Proof.
  intros Hearly Hnow. induction early as [|[g0 t0] early IH].
  - simpl. unfold generate_frames.
    assert (Hq : Qltb (now - last) frame_interval = false).
    { destruct (Qltb (now - last) frame_interval) eqn:E; [| reflexivity].
      apply Qltb_true in E. exfalso. apply (Qlt_not_le _ _ E Hnow). }
    rewrite Hq. destruct (detection_active g); simpl.
    + destruct (latest_frame g); simpl; eauto.
    + eauto.
  - inversion Hearly as [|? ? Hsoon Hearly']; subst. simpl in Hsoon.
    simpl. unfold generate_frames at 1.
    apply Qltb_true in Hsoon. rewrite Hsoon. apply IH. exact Hearly'.
Qed.

(** ** The camera test *)

(** X19: [test_camera] answers 200 exactly when the body names a camera
    URL, the capture opens and a frame is read. It opens at most one
    capture, none at all without a URL, and it releases the capture
    exactly when the capture opened and the read returned. *)
Theorem test_camera_outcome data env :
  let '(r, ev) := test_camera data env in
  (success r = true <-> status r = 200%nat)
  /\ (status r = 200%nat <->
      exists t, data = Some t
        /\ PyStr.truthy (test_url t) = true
        /\ test_open env = Opened
        /\ test_read env = TestReadReturned true)
  /\ (captures ev <= 1)%nat
  /\ ((forall t, data = Some t -> PyStr.truthy (test_url t) = false) ->
      ev = [])
  /\ (releases ev = 1%nat <->
      captures ev = 1%nat /\ test_open env = Opened
      /\ exists ret, test_read env = TestReadReturned ret).
Proof.
  unfold test_camera, data_truthy.
  destruct data as [[[url|] port other]|]; simpl;
    [destruct (PyStr.nonempty url) eqn:Hurl; simpl;
       [destruct (test_open env) eqn:Ho;
          [destruct (test_read env) as [[|]|err] eqn:Hr |..] |]
    | destruct (has_key port || other) | ];
    unfold captures, releases; simpl;
    (split; [split; intros; (discriminate || reflexivity) |]);
    (split; [split; [intros; try discriminate; eauto 10
                    | intros (t & Ht & Hu & Hop & Hrd);
                      try discriminate;
                      try (injection Ht as <-; simpl in Hu; congruence);
                      reflexivity] |]);
    (split; [lia |]);
    (split; [intros Hno; try reflexivity;
             specialize (Hno _ eq_refl); simpl in Hno; congruence |]);
    (split; [intros; try discriminate; eauto
            | intros (Hc & Hop & ret & Hret);
              try discriminate; reflexivity]).
Qed.

(** ** The heartbeat seen from outside *)

Section Health.

Variable cfg : Config.

(** X20: the heartbeat is the monitor's. After a poll of a running
    session, in any state the process reaches, [/health] reports as
    heartbeat age the time passed since that poll, and
    [is_heartbeat_active] holds exactly while this is less than 15 s;
    neither tells anything about the detection loop. *)
Theorem heartbeat_age_after_poll s env thread_alive now :
  reachable cfg s ->
  session_state (globals s) = Running ->
  monitoring_active (globals s) = true ->
  let s' := fst (exec cfg s (ActMonitor env)) in
  health_heartbeat_age
    (health_check (globals s') (detector s') thread_alive now)
  = Some (now - mon_now env)%Q
  /\ is_heartbeat_active (detector s') now = Qltb (now - mon_now env) (5 * 3).
Proof.
  intros Hreach Hs Hmon.
  destruct (reachable_covers cfg s Hreach) as [_ Hact].
  destruct (reachable_steady cfg s Hreach) as (_ & Hi & _).
  unfold session_state in Hs. destruct s as [g d ws]. simpl in *.
  destruct (detection_active g) eqn:Ha;
    [| destruct (current_settings g); discriminate].
  rewrite Hmon. unfold monitor_poll. rewrite Ha.
  change (is_running (heartbeat d (mon_now env))) with (is_running d).
  rewrite (Hact eq_refl). simpl.
  unfold health_check, is_heartbeat_active, get_last_heartbeat_age. simpl.
  rewrite Ha, Hi. split; reflexivity.
Qed.

End Health.
(** ** The further properties at the inputs of the scenario *)

Lemma second_start_rejected_witness :
  let '(g1, d1, r1, _) :=
    App.start_detection init_globals init_detector scenario_settings None
      scenario_start in
  success r1 = true
  /\ App.start_detection g1 d1 nested_webcam_settings None scenario_start
     = (g1, d1, {| status := 400%nat; success := false;
                   message := "Detection is already running" |}, []).
Proof.
  pose proof (second_start_rejected init_globals init_detector
                scenario_settings None scenario_start
                nested_webcam_settings None scenario_start) as H.
  destruct (App.start_detection init_globals init_detector scenario_settings
              None scenario_start) as [[[g1 d1] r1] ev1] eqn:E.
  assert (Hok : success r1 = true).
  { vm_compute in E. injection E as <- <- <- <-. reflexivity. }
  split; [exact Hok | exact (H Hok)].
Defined.

Lemma start_without_locator_witness :
  let settings :=
    {| ipCameraUrl := Some ""; ipCameraPort := Some "8080";
       ntfyTopic := Some "alerts"; ntfyPriority := None;
       enablePersonDetection := None; userId := None;
       supabaseUrl := None; supabaseKey := None; enableLogging := None |} in
  PyStr.truthy (ipCameraUrl settings) = false
  /\ let '(g', d', r, ev) :=
       App.start_detection init_globals init_detector settings None
         scenario_start in
     g' = init_globals /\ d' = init_detector /\ status r = 400%nat
     /\ success r = false /\ ev = [].
Proof.
  intros settings. split; [reflexivity |].
  apply (start_without_locator init_globals init_detector settings None
           scenario_start). reflexivity.
Defined.

Lemma stop_running_session_witness :
  reachable default_config scenario_system
  /\ session_state (globals scenario_system) = Running
  /\ let '(g, d, r, ev) :=
       App.stop_detection (globals scenario_system)
         (detector scenario_system) in
     status r = 200%nat /\ session_state g = Stopped
     /\ is_running d = false /\ cap d = None
     /\ latest_frame g = None /\ current_settings g = None
     /\ App.stop_detection g d
        = (g, d, {| status := 400%nat; success := false;
                    message := "Detection is not running" |}, []).
Proof.
  assert (H : reachable default_config scenario_system).
  { exists [ActStart scenario_settings None scenario_start]. reflexivity. }
  split; [exact H |]. split; [reflexivity |].
  apply (stop_running_session default_config scenario_system H).
  reflexivity.
Defined.

Lemma port_ignored_with_scheme_witness :
  PyStr.startswith "rtmp://host/live" "rtmp://"
  || PyStr.startswith "rtmp://host/live" "srt://"
  || PyStr.startswith "rtmp://host/live" "http://"
  || PyStr.startswith "rtmp://host/live" "https://" = true
  /\ locate "rtmp://host/live" "1935" = Url "rtmp://host/live".
Proof.
  split; [reflexivity |].
  apply (port_ignored_with_scheme "rtmp://host/live" "1935"). reflexivity.
Defined.

Lemma one_notification_per_class_per_frame_witness :
  (0 <= notification_cooldown (detector scenario_system))%Q
  /\ (notify_count "car"
        (snd (process_detections default_config (detector scenario_system)
                [scenario_car; scenario_person; scenario_car] 1000
                (fun _ => noon))) <= 1)%nat.
Proof.
  assert (H : (0 <= notification_cooldown (detector scenario_system))%Q)
    by (vm_compute; discriminate).
  split; [exact H |].
  apply (one_notification_per_class_per_frame default_config
           (detector scenario_system)
           [scenario_car; scenario_person; scenario_car] 1000
           (fun _ => noon) "car" H).
Defined.

Lemma cooldown_is_per_class_witness :
  forallb (fun det => negb (String.eqb (det_class det) "car"))
    [scenario_person] = true
  /\ let d' := fst (process_detections default_config
                      (detector scenario_system) [scenario_person] 1000
                      (fun _ => noon)) in
     last_notification_time d' !! "car"
     = last_notification_time (detector scenario_system) !! "car"
     /\ cooldown_over d' "car" 1001
        = cooldown_over (detector scenario_system) "car" 1001.
Proof.
  split; [reflexivity |].
  apply (cooldown_is_per_class default_config (detector scenario_system)
           [scenario_person] 1000 (fun _ => noon) "car" 1001).
  repeat constructor. discriminate.
Defined.

Lemma person_alert_off_still_notifies_witness :
  let d := configure init_detector (Webcam 0)
             {| ipCameraUrl := Some "webcam://0"; ipCameraPort := None;
                ntfyTopic := Some "alerts"; ntfyPriority := Some "low";
                enablePersonDetection := Some false; userId := None;
                supabaseUrl := None; supabaseKey := None;
                enableLogging := None |} in
  PyStr.lower (det_class scenario_person) = "person"
  /\ enable_person_detection d = false
  /\ PyStr.truthy (ntfy_topic d) = true
  /\ cooldown_over d (det_class scenario_person) 1000 = true
  /\ exists r,
       notifications
         (snd (process_detections default_config d [scenario_person] 1000
                 (fun _ => noon)))
       = [(det_class scenario_person, r)]
       /\ req_priority r = "urgent"
       /\ req_title r = "Person Detected!"
       /\ logged
            (snd (process_detections default_config d [scenario_person] 1000
                    (fun _ => noon)))
          = if logging_on d
            then [(det_class scenario_person, det_confidence scenario_person)]
            else [].
Proof.
  intros d.
  split; [reflexivity |]. split; [reflexivity |]. split; [reflexivity |].
  split; [reflexivity |].
  apply (person_alert_off_still_notifies default_config d scenario_person
           1000 (fun _ => noon)); reflexivity.
Defined.

Lemma table_entries_not_in_future_witness :
  let d' := fst (process_detections default_config
                   (detector scenario_system) [scenario_car] 1000
                   (fun _ => noon)) in
  (forall C x, last_notification_time (detector scenario_system) !! C = Some x
               -> (x <= 1000)%Q)
  /\ forall C x, last_notification_time d' !! C = Some x -> (x <= 1000)%Q.
Proof.
  intros d'.
  assert (H : forall C x,
            last_notification_time (detector scenario_system) !! C = Some x
            -> (x <= 1000)%Q).
  { intros C x Hx. change (last_notification_time (detector scenario_system))
      with (∅ : gmap string Q) in Hx.
    rewrite lookup_empty in Hx. discriminate. }
  split; [exact H |].
  apply (table_entries_not_in_future default_config
           (detector scenario_system) [scenario_car] 1000 (fun _ => noon)).
  exact H.
Defined.

Lemma frames_throttled_witness :
  let d := set_frame_callback init_detector in
  frame_callback d = true
  /\ frames (snd (publish d 1%N 1000)) = [1%N]
  /\ let d1 := fst (publish d 1%N 1000) in
     frames (snd (publish d1 2%N 1010))
     = (if 33 <=? 1010 - 1000 then [2%N] else [])
     /\ last_callback_time (fst (publish d1 2%N 1010))
        = Some (if 33 <=? 1010 - 1000 then 1010 else 1000).
Proof.
  intros d. split; [reflexivity |]. split; [reflexivity |].
  apply (frames_throttled d 1%N 2%N 1000 1010); reflexivity.
Defined.

Lemma reconnect_budget_witness :
  is_running scenario_camera_down = true
  /\ cap_is_open scenario_camera_down = false
  /\ reconnect_attempts init_loop = 0%nat
  /\ length (repeat failing_reconnect 5) = max_reconnect_attempts
  /\ forallb (is_failed_reconnect default_config
                (last_detection_time init_loop))
       (repeat failing_reconnect 5) = true
  /\ let '(d', lv', ev, finished) :=
       detection_loop default_config scenario_camera_down init_loop
         (repeat failing_reconnect 5 ++ [car_frame])%list in
     finished = true /\ is_running d' = true /\ cap d' = None
     /\ captures ev = max_reconnect_attempts.
Proof.
  split; [reflexivity |]. split; [reflexivity |]. split; [reflexivity |].
  split; [reflexivity |]. split; [reflexivity |].
  apply (reconnect_budget default_config scenario_camera_down init_loop
           (repeat failing_reconnect 5) [car_frame]);
    try reflexivity.
  simpl repeat. repeat constructor.
Defined.

Lemma periods_are_constant_witness :
  reachable default_config scenario_system
  /\ notification_cooldown (detector scenario_system) = 60%Q
  /\ heartbeat_interval (detector scenario_system) = 5%Q.
Proof.
  assert (H : reachable default_config scenario_system).
  { exists [ActStart scenario_settings None scenario_start]. reflexivity. }
  split; [exact H |].
  apply (periods_are_constant default_config scenario_system H).
Defined.

Lemma running_detector_has_model_witness :
  reachable default_config scenario_system
  /\ is_running (detector scenario_system) = true
  /\ model_loaded (detector scenario_system) = true.
Proof.
  assert (H : reachable default_config scenario_system).
  { exists [ActStart scenario_settings None scenario_start]. reflexivity. }
  split; [exact H |]. split; [reflexivity |].
  apply (running_detector_has_model default_config scenario_system H).
  reflexivity.
Defined.

Lemma monitor_never_restarts_witness :
  reachable default_config scenario_system
  /\ let '(s', ev) :=
       exec default_config scenario_system (ActMonitor failing_poll) in
     restarts ev = []
     /\ globals s' = globals scenario_system
     /\ workers s' = workers scenario_system
     /\ (detector s' = detector scenario_system
         \/ detector s'
            = heartbeat (detector scenario_system) (mon_now failing_poll)).
Proof.
  assert (H : reachable default_config scenario_system).
  { exists [ActStart scenario_settings None scenario_start]. reflexivity. }
  split; [exact H |].
  apply (monitor_never_restarts default_config scenario_system failing_poll H).
Defined.


Lemma stream_shows_only_live_frames_witness :
  let g := update_latest_frame (globals scenario_system) 7%N in
  In (Picture 7%N) (stream 0 [(g, 1%Q)])
  /\ exists g0 now,
       In (g0, now) [(g, 1%Q)]
       /\ detection_active g0 = true /\ latest_frame g0 = Some 7%N.
Proof.
  intros g.
  assert (H : In (Picture 7%N) (stream 0 [(g, 1%Q)]))
    by (left; reflexivity).
  split; [exact H |].
  apply (stream_shows_only_live_frames 0 [(g, 1%Q)] 7%N H).
Defined.

Lemma heartbeat_age_after_poll_witness :
  reachable default_config scenario_system
  /\ session_state (globals scenario_system) = Running
  /\ monitoring_active (globals scenario_system) = true
  /\ let s' := fst (exec default_config scenario_system
                      (ActMonitor late_poll)) in
     health_heartbeat_age
       (health_check (globals s') (detector s') true 10004)
     = Some (10004 - mon_now late_poll)%Q
     /\ is_heartbeat_active (detector s') 10004
        = Qltb (10004 - mon_now late_poll) (5 * 3).
Proof.
  assert (H : reachable default_config scenario_system).
  { exists [ActStart scenario_settings None scenario_start]. reflexivity. }
  split; [exact H |]. split; [reflexivity |]. split; [reflexivity |].
  apply (heartbeat_age_after_poll default_config scenario_system late_poll
           true 10004 H); reflexivity.
Defined.

Lemma stream_is_paced_witness :
  forallb (fun turn => Qltb (snd turn - 0) frame_interval)
    [(init_globals, 1 # 100); (init_globals, 2 # 100)] = true
  /\ (frame_interval <= (4 # 100) - 0)%Q
  /\ exists c,
       stream 0 ([(init_globals, 1 # 100); (init_globals, 2 # 100)]
                 ++ (init_globals, 4 # 100) :: [(init_globals, 5 # 100)])%list
       = c :: stream (4 # 100) [(init_globals, 5 # 100)].
Proof.
  split; [reflexivity |].
  assert (H : (frame_interval <= (4 # 100) - 0)%Q)
    by (vm_compute; discriminate).
  split; [exact H |].
  apply (stream_is_paced 0 [(init_globals, 1 # 100); (init_globals, 2 # 100)]
           init_globals (4 # 100) [(init_globals, 5 # 100)]); [| exact H].
  repeat constructor.
Defined.

(** ** The notification URL *)

Lemma rstrip_char_no_trailing c s :
  ends_with_char c (PyStr.rstrip_char c s) = false.
Proof.
  induction s as [|a s IH]; [reflexivity |].
  cbn [PyStr.rstrip_char].
  destruct (PyStr.rstrip_char c s) as [|b r] eqn:E.
  - destruct (Ascii.eqb a c) eqn:Ea; [reflexivity |]. simpl. exact Ea.
  - exact IH.
Qed.

Lemma lstrip_char_no_leading c s :
  PyStr.startswith (PyStr.lstrip_char c s) (String c "") = false.
Proof.
  induction s as [|a s IH]; [reflexivity |].
  cbn [PyStr.lstrip_char].
  destruct (Ascii.eqb_spec a c) as [-> | Hne]; [exact IH |].
  unfold PyStr.startswith. simpl.
  destruct (ascii_dec c a); [congruence | reflexivity].
Qed.

(** X21: the URL a notification is posted to is the topic itself when
    the topic is a full http or https URL; otherwise it is the base URL
    of the configuration without its trailing slashes, one slash, and
    the topic without its leading slashes, so that exactly one slash
    joins the two whatever slashes they carry. *)
Theorem notification_url cfg d topic object_class confidence is_priority now :
  ntfy_topic d = Some topic ->
  exists r,
    send_notification cfg d object_class confidence is_priority now
    = [EvNotify object_class r]
    /\ (PyStr.startswith topic "http://" || PyStr.startswith topic "https://"
        = true -> req_url r = topic)
    /\ (PyStr.startswith topic "http://" || PyStr.startswith topic "https://"
        = false ->
        exists base name,
          req_url r = base ++ "/" ++ name
          /\ base = PyStr.rstrip_char "/" (NTFY_BASE_URL cfg)
          /\ name = PyStr.lstrip_char "/" topic
          /\ ends_with_char "/" base = false
          /\ PyStr.startswith name "/" = false).
Proof.
  intros Ht. unfold send_notification. rewrite Ht.
  destruct (String.eqb (PyStr.lower object_class) "person");
    (eexists; split; [reflexivity |]); simpl req_url;
    destruct (PyStr.startswith topic "http://"
              || PyStr.startswith topic "https://");
    (split; [intros; reflexivity || discriminate |]);
    intros; try discriminate;
    (eexists; eexists; split; [reflexivity |]);
    (split; [reflexivity |]); (split; [reflexivity |]);
    (split; [apply rstrip_char_no_trailing | apply lstrip_char_no_leading]).
Qed.

Lemma notification_url_witness :
  ntfy_topic (detector scenario_system) = Some "alerts"
  /\ exists r,
       send_notification default_config (detector scenario_system) "car"
         (3 # 4) false noon
       = [EvNotify "car" r]
       /\ (PyStr.startswith "alerts" "http://"
           || PyStr.startswith "alerts" "https://" = true ->
           req_url r = "alerts")
       /\ (PyStr.startswith "alerts" "http://"
           || PyStr.startswith "alerts" "https://" = false ->
           exists base name,
             req_url r = base ++ "/" ++ name
             /\ base = PyStr.rstrip_char "/" (NTFY_BASE_URL default_config)
             /\ name = PyStr.lstrip_char "/" "alerts"
             /\ ends_with_char "/" base = false
             /\ PyStr.startswith name "/" = false).
Proof.
  split; [reflexivity |].
  apply (notification_url default_config (detector scenario_system) "alerts"
           "car" (3 # 4) false noon). reflexivity.
Defined.

Lemma webcam_index_round_trip_witness :
  (N.of_nat (String.length (PyStr.of_N 12)) <= PyStr.max_str_digits)%N
  /\ locate ("webcam://" ++ PyStr.of_N 12) "8080" = Webcam 12.
Proof.
  assert (H : (N.of_nat (String.length (PyStr.of_N 12))
               <= PyStr.max_str_digits)%N) by (vm_compute; discriminate).
  split; [exact H |].
  apply (webcam_index_round_trip 12 "8080" H).
Defined.
